(** * scripts/create-icons.py: the icon generator and its driver

    A shallow embedding of the script.  Python integers are [Z] ([//] is
    [Z.div], floor division); Python floats are IEEE 754 binary64 values,
    taken from the standard library's [SpecFloat]; a [str] is the [string]
    of its UTF-8 bytes; the Pillow image object that [Image.new] allocates
    and that the [ImageDraw] methods mutate in place lives in a heap of the
    [world]; the file system is a set of directories and a finite map from
    paths to what the regular files hold; exceptions are values of [exn],
    threaded by a state-and-error monad.  The platform is POSIX with a
    32-bit C [int] and a 64-bit C [long]. *)

From Stdlib Require Import ZArith Lia Bool List String Ascii.
From Stdlib Require Import SpecFloat DecimalString.
From stdpp Require Import gmap strings list.

Open Scope Z_scope.

(** [str(n)] for an [int]. *)
Definition str_int (n : Z) : string := NilZero.string_of_int (Z.to_int n).

(** ** Text and its encodings *)

Module codecs.

(** The encodings of [sys.stdout] that are told apart. *)
Inductive encoding : Type :=
| utf_8
| latin_1
| ascii.

Definition name (enc : encoding) : string :=
  match enc with
  | utf_8 => "utf-8"
  | latin_1 => "latin-1"
  | ascii => "ascii"
  end.

(** The code points an encoding has are those below its limit. *)
Definition limit (enc : encoding) : Z :=
  match enc with
  | utf_8 => 1114112
  | latin_1 => 256
  | ascii => 128
  end.

Definition byte (c : Ascii.ascii) : Z := Z.of_N (N_of_ascii c).

(** The code points of a text, decoded from its UTF-8 bytes. *)
Fixpoint codepoints (s : string) : list Z :=
  match s with
  | EmptyString => []
  | String c0 r0 =>
      let b0 := byte c0 in
      if b0 <? 192 then b0 :: codepoints r0
      else
        match r0 with
        | EmptyString => [b0]
        | String c1 r1 =>
            let b1 := byte c1 - 128 in
            if b0 <? 224 then ((b0 - 192) * 64 + b1) :: codepoints r1
            else
              match r1 with
              | EmptyString => [b0]
              | String c2 r2 =>
                  let b2 := byte c2 - 128 in
                  if b0 <? 240 then ((b0 - 224) * 4096 + b1 * 64 + b2) :: codepoints r2
                  else
                    match r2 with
                    | EmptyString => [b0]
                    | String c3 r3 =>
                        let b3 := byte c3 - 128 in
                        ((b0 - 240) * 262144 + b1 * 4096 + b2 * 64 + b3) :: codepoints r3
                    end
              end
        end
  end.

(** [s.encode(enc)] raises nothing. *)
Definition encodable (enc : encoding) (s : string) : bool :=
  match enc with
  | utf_8 => true
  | _ => forallb (fun c => c <? limit enc) (codepoints s)
  end.

(** How many code points at the front of [cs] are not below [lim]. *)
Fixpoint run_length (lim : Z) (cs : list Z) : Z :=
  match cs with
  | [] => 0
  | c :: cs' => if c <? lim then 0 else 1 + run_length lim cs'
  end.

(** The first run of code points that [enc] lacks: where it starts, how
    long it is, and its first code point. *)
Fixpoint first_run (lim : Z) (cs : list Z) (i : Z) : option (Z * Z * Z) :=
  match cs with
  | [] => None
  | c :: cs' =>
      if c <? lim then first_run lim cs' (i + 1)
      else Some (i, run_length lim cs, c)
  end.

Definition hex_digit (d : Z) : string :=
  String (ascii_of_N (Z.to_N (if d <? 10 then 48 + d else 87 + d))) EmptyString.

Fixpoint hex (width : nat) (n : Z) : string :=
  match width with
  | O => EmptyString
  | S width' => hex width' (n / 16) +:+ hex_digit (n mod 16)
  end.

(** The body of [repr(chr(c))] for a code point that is not ASCII. *)
Definition escape (c : Z) : string :=
  if c <? 256 then "\x" +:+ hex 2 c
  else if c <? 65536 then "\u" +:+ hex 4 c
  else "\U" +:+ hex 8 c.

(** [str(e)] for the [UnicodeEncodeError] of [s.encode(enc)]. *)
Definition error_message (enc : encoding) (s : string) : string :=
  match first_run (limit enc) (codepoints s) 0 with
  | None => EmptyString
  | Some (start, count, c) =>
      "'" +:+ name enc +:+ "' codec can't encode "
      +:+ (if count =? 1
           then "character '" +:+ escape c +:+ "' in position " +:+ str_int start
           else "characters in position " +:+ str_int start +:+ "-"
                +:+ str_int (start + count - 1))
      +:+ ": ordinal not in range(" +:+ str_int (limit enc) +:+ ")"
  end.

End codecs.

(** ** Exceptions *)

Inductive exn : Type :=
| ModuleNotFoundError (name : string)
| OverflowError (msg : string)
| ValueError (msg : string)
| MemoryError
| UnicodeEncodeError (enc : codecs.encoding) (object : string)
| FileNotFoundError (path : string)
| FileExistsError (path : string)
| NotADirectoryError (path : string)
| IsADirectoryError (path : string).

(** [ModuleNotFoundError] is the subclass of [ImportError] that a failing
    [import] raises; it is the only exception here that [except ImportError]
    catches. *)
Definition is_ImportError (e : exn) : bool :=
  match e with
  | ModuleNotFoundError _ => true
  | _ => false
  end.

(** [str(e)] *)
Definition str_exn (e : exn) : string :=
  match e with
  | ModuleNotFoundError name => "No module named '" +:+ name +:+ "'"
  | OverflowError msg => msg
  | ValueError msg => msg
  | MemoryError => EmptyString
  | UnicodeEncodeError enc object => codecs.error_message enc object
  | FileNotFoundError path => "[Errno 2] No such file or directory: '" +:+ path +:+ "'"
  | FileExistsError path => "[Errno 17] File exists: '" +:+ path +:+ "'"
  | NotADirectoryError path => "[Errno 20] Not a directory: '" +:+ path +:+ "'"
  | IsADirectoryError path => "[Errno 21] Is a directory: '" +:+ path +:+ "'"
  end.

(** ** Python floats: binary64 *)

Module PyFloat.

Abbreviation prec := 53%Z (only parsing).
Abbreviation emax := 1024%Z (only parsing).

Definition float : Type := spec_float.

(** [float(n)] as [n * 0.6] computes it for an [int] n: correctly rounded,
    ties to even, [OverflowError] beyond the binary64 range. *)
Definition of_int (n : Z) : exn + float :=
  match binary_normalize prec emax n 0 false with
  | S754_infinity _ => inl (OverflowError "int too large to convert to float")
  | x => inr x
  end.

Definition mul (x y : float) : float := SFmul prec emax x y.

(** [int(x)]: truncation towards zero. *)
Definition to_int (x : float) : exn + Z :=
  match x with
  | S754_zero _ => inr 0
  | S754_infinity _ => inl (OverflowError "cannot convert float infinity to integer")
  | S754_nan => inl (ValueError "cannot convert float NaN to integer")
  | S754_finite s m e =>
      inr (cond_Zopp s (if 0 <=? e then Zpos m * 2 ^ e else Zpos m / 2 ^ (- e)))
  end.

(** The literals [0.6], [0.7] and [0.9]: the binary64 values nearest to
    6/10, 7/10 and 9/10. *)
Definition lit_0_6 : float := S754_finite false 5404319552844595 (- 53).
Definition lit_0_7 : float := S754_finite false 6305039478318694 (- 53).
Definition lit_0_9 : float := S754_finite false 8106479329266893 (- 53).

(** [int(n * c)] for an [int] n and a [float] c. *)
Definition int_mul (n : Z) (c : float) : exn + Z :=
  match of_int n with
  | inl err => inl err
  | inr x => to_int (mul x c)
  end.

(** Integer-level description of the rounding that [SpecFloat] performs,
    used to reason about [int_mul]: [rne m k] is [m / 2^k] rounded to
    nearest, ties to even; [round53 m e] is the 53-bit mantissa and the
    exponent of the binary64 value nearest to [m * 2^e]; [repr n] is the
    mantissa and exponent of [float(n)]. *)
Definition rne (m k : Z) : Z :=
  let q := m / 2 ^ k in
  match 2 * (m mod 2 ^ k) ?= 2 ^ k with
  | Lt => q
  | Eq => if Z.even q then q else q + 1
  | Gt => q + 1
  end.

Definition round53 (m e : Z) : Z * Z :=
  let k := Z.log2 m + 1 - prec in
  if k <=? 0 then (m, e)
  else let m1 := rne m k in
       if m1 =? 2 ^ prec then (2 ^ (prec - 1), e + k + 1) else (m1, e + k).

Definition repr (n : Z) : Z * Z :=
  if n <? 2 ^ 53 then (n * 2 ^ (52 - Z.log2 n), Z.log2 n - 52) else round53 n 0.

(** The state of [SpecFloat]'s bit-by-bit right shift of [M] after [k]
    steps: quotient, round bit and sticky bit. *)
Definition shr_inv (M k : Z) (mrs : shr_record) : Prop :=
  shr_m mrs = M / 2 ^ k /\
  shr_r mrs = (0 <? k) && Z.testbit M (k - 1) /\
  shr_s mrs = (0 <? k) && negb (M mod 2 ^ (k - 1) =? 0).

End PyFloat.

(** ** os.path on POSIX *)

Module posixpath.

Definition sep : ascii := "/"%char.

Definition is_sep (c : ascii) : bool := Ascii.eqb c sep.

Definition nonempty (s : string) : bool :=
  match s with
  | EmptyString => false
  | String _ _ => true
  end.

(** [(p[:i], p[i:])] for [i = p.rfind('/') + 1]. *)
Fixpoint rsplit (p : string) : string * string :=
  match p with
  | EmptyString => (EmptyString, EmptyString)
  | String c p' =>
      let '(h, t) := rsplit p' in
      if nonempty h then (String c h, t)
      else if is_sep c then (String c EmptyString, t)
      else (EmptyString, String c t)
  end.

(** [s.rstrip('/')] *)
Fixpoint rstrip_sep (s : string) : string :=
  match s with
  | EmptyString => EmptyString
  | String c s' =>
      let r := rstrip_sep s' in
      if is_sep c && negb (nonempty r) then EmptyString else String c r
  end.

(** [s == '/' * len(s)] *)
Fixpoint all_sep (s : string) : bool :=
  match s with
  | EmptyString => true
  | String c s' => is_sep c && all_sep s'
  end.

Definition split (p : string) : string * string :=
  let '(head, tail) := rsplit p in
  (if nonempty head && negb (all_sep head) then rstrip_sep head else head, tail).

Definition dirname (p : string) : string := fst (split p).

Definition startswith_sep (s : string) : bool :=
  match s with
  | EmptyString => false
  | String c _ => is_sep c
  end.

Fixpoint endswith_sep (s : string) : bool :=
  match s with
  | EmptyString => false
  | String c EmptyString => is_sep c
  | String _ s' => endswith_sep s'
  end.

(** One round of the loop of [join(a, *p)]. *)
Definition join2 (path b : string) : string :=
  if startswith_sep b then b
  else if negb (nonempty path) || endswith_sep path then path +:+ b
  else path +:+ String sep b.

Definition join (a : string) (p : list string) : string := fold_left join2 p a.

(** The proper ancestors of an absolute path, outermost first:
    ["/"; "/a"; "/a/b"] for "/a/b/c". *)
Fixpoint ancestors_from (pre p : string) : list string :=
  match p with
  | EmptyString => []
  | String c p' =>
      (if is_sep c then [if nonempty pre then pre else String sep EmptyString] else [])
      ++ ancestors_from (pre +:+ String c EmptyString) p'
  end.

Definition ancestors (p : string) : list string := ancestors_from EmptyString p.

(** [p.split('/')] *)
Fixpoint components (p : string) : list string :=
  match p with
  | EmptyString => [EmptyString]
  | String c p' =>
      if is_sep c then EmptyString :: components p'
      else match components p' with
           | h :: t => String c h :: t
           | [] => [String c EmptyString]
           end
  end.

(** A component that names an entry of a directory. *)
Definition is_name (c : string) : bool :=
  nonempty c && negb (String.eqb c ".") && negb (String.eqb c "..").

(** An absolute path in normal form: [/] alone, or names that single [/]
    start and separate.  The file system is keyed by such paths. *)
Definition canonical (p : string) : bool :=
  match p with
  | EmptyString => false
  | String c rest => is_sep c && (negb (nonempty rest) || forallb is_name (components rest))
  end.

End posixpath.

(** ** Pillow: images and the drawing calls made on them *)

Definition color : Type := Z * Z * Z.
Definition rgba : Type := Z * Z * Z * Z.

Inductive draw_call : Type :=
| rounded_rectangle (xy : list Z) (radius : Z) (fill : color)
| polygon (xy : list Z) (fill : color)
| ellipse (xy : list Z) (fill : color)
| rectangle (xy : list Z) (fill : color).

(** An image is what [Image.new(mode, size, color)] allocated, with every
    pixel set to [color], and the drawing calls made on it since, oldest
    first.  Rasterisation and PNG encoding are Pillow's. *)
Record Image : Type := {
  im_mode : string;
  im_size : Z * Z;
  im_color : rgba;
  im_drawn : list draw_call
}.

Definition fill_of (d : draw_call) : color :=
  match d with
  | rounded_rectangle _ _ fill => fill
  | polygon _ fill => fill
  | ellipse _ fill => fill
  | rectangle _ fill => fill
  end.



Definition record_call (d : draw_call) (im : Image) : Image :=
  {| im_mode := im_mode im; im_size := im_size im; im_color := im_color im;
     im_drawn := im_drawn im ++ [d] |}.

(** What a regular file holds: the PNG encoding of an image, or other bytes. *)
Inductive content : Type :=
| png (im : Image)
| data (bytes : string).

(** ** The world the script runs in *)

Record world : Type := {
  pillow_installed : bool;            (* whether [import PIL] succeeds *)
  script_file : string;               (* os.path.abspath(__file__) *)
  memory : Z;                         (* the bytes a new raster can take *)
  stdout_encoding : codecs.encoding;  (* sys.stdout.encoding *)
  dirs : gset string;                 (* the directories that exist *)
  files : gmap string content;        (* the regular files that exist *)
  heap : list Image;                  (* the image objects allocated so far *)
  stdout : list string                (* what print has written, a line per entry *)
}.

Definition with_fs (d : gset string) (f : gmap string content) (w : world) : world :=
  {| pillow_installed := pillow_installed w; script_file := script_file w;
     memory := memory w; stdout_encoding := stdout_encoding w;
     dirs := d; files := f; heap := heap w; stdout := stdout w |}.

Definition with_heap (h : list Image) (w : world) : world :=
  {| pillow_installed := pillow_installed w; script_file := script_file w;
     memory := memory w; stdout_encoding := stdout_encoding w;
     dirs := dirs w; files := files w; heap := h; stdout := stdout w |}.

Definition with_stdout (o : list string) (w : world) : world :=
  {| pillow_installed := pillow_installed w; script_file := script_file w;
     memory := memory w; stdout_encoding := stdout_encoding w;
     dirs := dirs w; files := files w; heap := heap w; stdout := o |}.

(** ** The monad of statements: state [world], errors [exn] *)

Definition M (A : Type) : Type := world -> (exn + A) * world.

Definition ret {A} (a : A) : M A := fun w => (inr a, w).

Definition bind {A B} (m : M A) (k : A -> M B) : M B :=
  fun w => match m w with
           | (inl e, w') => (inl e, w')
           | (inr a, w') => k a w'
           end.

(** An expression that may raise but has no other effect. *)
Definition eval {A} (r : exn + A) : M A := fun w => (r, w).

Declare Scope py_scope.
Delimit Scope py_scope with py.
Notation "x <- m ;; k" := (bind m (fun x => k))
  (at level 100, m at next level, right associativity) : py_scope.
Notation "m ;; k" := (bind m (fun _ => k))
  (at level 100, right associativity) : py_scope.
Open Scope py_scope.

(** [for x in xs: body(x)] *)
Fixpoint for_each {A} (xs : list A) (body : A -> M unit) : M unit :=
  match xs with
  | [] => ret tt
  | x :: xs' => body x ;; for_each xs' body
  end.

(** [try: m  except ImportError: h1  except Exception as e: h2(e)] *)
Definition try_except (m : M unit) (on_import_error : M unit)
    (on_exception : exn -> M unit) : M unit :=
  fun w => match m w with
           | (inl e, w') =>
               if is_ImportError e then on_import_error w' else on_exception e w'
           | (inr a, w') => (inr a, w')
           end.

(** ** Builtins and library calls *)

(** [print(line)]: the line is encoded for [sys.stdout] and written;
    [UnicodeEncodeError], with nothing written, when the encoding lacks one
    of its characters. *)
Definition print (line : string) : M unit :=
  fun w => if codecs.encodable (stdout_encoding w) line
           then (inr tt, with_stdout (stdout w ++ [line]) w)
           else (inl (UnicodeEncodeError (stdout_encoding w) line), w).

(** [print(a, b)]: [a], a space, [b] and the end of the line are written
    one after the other, so that [a] and the space are out when [b] cannot
    be encoded. *)
Definition print2 (a b : string) : M unit :=
  fun w =>
    let enc := stdout_encoding w in
    if negb (codecs.encodable enc a) then (inl (UnicodeEncodeError enc a), w)
    else if negb (codecs.encodable enc b)
    then (inl (UnicodeEncodeError enc b), with_stdout (stdout w ++ [a +:+ " "]) w)
    else (inr tt, with_stdout (stdout w ++ [a +:+ " " +:+ b]) w).

(** [from PIL import Image, ImageDraw, ImageFont] *)
Definition import_PIL : M unit :=
  fun w => if pillow_installed w then (inr tt, w)
           else (inl (ModuleNotFoundError "PIL"), w).

(** A dimension handed to Pillow's C code, which takes a C [int]. *)
Definition c_int_error (v : Z) : option exn :=
  if 2 ^ 63 <=? v then Some (OverflowError "Python int too large to convert to C long")
  else if 2 ^ 31 <=? v then Some (OverflowError "signed integer is greater than maximum")
  else None.

Definition INT_MAX : Z := 2 ^ 31 - 1.

(** Why [Image.new] with four bytes a pixel raises, if it does: a negative
    dimension, a dimension that is no C [int], a row too long for Pillow,
    or a raster that the memory cannot take. *)
Definition new_error (size : Z * Z) (w : world) : option exn :=
  let '(xsize, ysize) := size in
  if (xsize <? 0) || (ysize <? 0) then Some (ValueError "Width and height must be >= 0")
  else match c_int_error xsize with
       | Some e => Some e
       | None =>
           match c_int_error ysize with
           | Some e => Some e
           | None =>
               if (INT_MAX / 4 - 1 <? xsize) || (memory w <? 4 * xsize * ysize)
               then Some MemoryError
               else None
           end
       end.

(** [Image.new(mode, size, color)]: a new image object; the result is its
    address in the heap. *)
Definition Image_new (mode : string) (size : Z * Z) (c : rgba) : M nat :=
  fun w => match new_error size w with
           | Some e => (inl e, w)
           | None =>
               (inr (length (heap w)),
                with_heap (heap w ++ [{| im_mode := mode; im_size := size;
                                          im_color := c; im_drawn := [] |}]) w)
           end.

(** [ImageDraw.Draw(img)]: a drawing context on the same image object. *)
Definition ImageDraw_Draw (img : nat) : M nat := ret img.

(** A drawing method of the context [draw]: it changes the image in place. *)
Definition draw_on (draw : nat) (d : draw_call) : M unit :=
  fun w => (inr tt, with_heap (alter (record_call d) draw (heap w)) w).

(** Whether [open(filename, 'w+b')] succeeds, for a canonical [filename]:
    the name is not a directory's and its parent is a directory. *)
Definition writable (filename : string) (w : world) : bool :=
  negb (bool_decide (filename ∈ dirs w))
  && bool_decide (posixpath.dirname filename ∈ dirs w).

(** The exception [open] raises otherwise. *)
Definition open_error (filename : string) (w : world) : exn :=
  if bool_decide (filename ∈ dirs w) then IsADirectoryError filename
  else if existsb (fun a => bool_decide (a ∈ dom (files w))) (posixpath.ancestors filename)
  then NotADirectoryError filename
  else FileNotFoundError filename.

Definition is_empty (im : Image) : bool :=
  (fst (im_size im) =? 0) || (snd (im_size im) =? 0).

(** [img.save(filename, 'PNG')]: the file is opened for writing, which
    empties it when it exists, and then holds the image.  The encoder
    refuses an image without pixels: the file is closed, and removed when
    the call created it. *)
Definition Image_save (img : nat) (filename : string) : M unit :=
  fun w =>
    match heap w !! img with
    | None => (inl (ValueError "unknown image"), w)
    | Some im =>
        if writable filename w
        then if is_empty im
             then (inl (ValueError "tile cannot extend outside image"),
                   with_fs (dirs w) (alter (fun _ => data EmptyString) filename (files w)) w)
             else (inr tt, with_fs (dirs w) (<[filename := png im]> (files w)) w)
        else (inl (open_error filename w), w)
    end.

(** The first path of a chain, each a child of the one before, that lies
    below a regular file. *)
Fixpoint below_file (fs : gmap string content) (chain : list string) : option string :=
  match chain with
  | a :: (b :: _) as rest =>
      if bool_decide (a ∈ dom fs) then Some b else below_file fs rest
  | _ => None
  end.

(** [os.makedirs(name, exist_ok=True)]: nothing to do when [name] is a
    directory already; otherwise [name] and its missing ancestors are
    created, unless a file is in the way. *)
Definition os_makedirs (name : string) : M unit :=
  fun w =>
    if bool_decide (name ∈ dirs w) then (inr tt, w)
    else if bool_decide (name ∈ dom (files w)) then (inl (FileExistsError name), w)
    else match below_file (files w) (posixpath.ancestors name ++ [name]) with
         | Some p => (inl (NotADirectoryError p), w)
         | None =>
             (inr tt, with_fs (dirs w ∪ list_to_set (posixpath.ancestors name) ∪ {[ name ]})
                              (files w) w)
         end.

(** [os.path.abspath(__file__)] *)
Definition abspath_file : M string := fun w => (inr (script_file w), w).

(** ** The script *)

(** [def create_icon(size, filename)] *)
Definition create_icon (size : Z) (filename : string) : M unit :=
  (* Create a new image with a transparent background *)
  img <- Image_new "RGBA" (size, size) (0, 0, 0, 0) ;;
  draw <- ImageDraw_Draw img ;;
  (* Define colors *)
  let bg_color : color := (37, 99, 235) in
  let text_color : color := (255, 255, 255) in
  (* Draw rounded rectangle background *)
  let margin := size / 8 in
  draw_on draw (rounded_rectangle [margin; margin; size - margin; size - margin]
                                  (size / 6) bg_color) ;;
  (* Calculate bookmark icon dimensions *)
  let bookmark_width := size / 2 in
  bookmark_height <- eval (PyFloat.int_mul size PyFloat.lit_0_6) ;;
  let bookmark_x := (size - bookmark_width) / 2 in
  let bookmark_y := (size - bookmark_height) / 2 in
  (* Draw bookmark shape (rectangle with triangular cutout at bottom) *)
  right_side <- eval (PyFloat.int_mul bookmark_height PyFloat.lit_0_7) ;;
  bottom_point <- eval (PyFloat.int_mul bookmark_height PyFloat.lit_0_9) ;;
  left_side <- eval (PyFloat.int_mul bookmark_height PyFloat.lit_0_7) ;;
  let bookmark_points :=
    [ bookmark_x; bookmark_y;
      bookmark_x + bookmark_width; bookmark_y;
      bookmark_x + bookmark_width; bookmark_y + right_side;
      bookmark_x + bookmark_width / 2; bookmark_y + bottom_point;
      bookmark_x; bookmark_y + left_side ] in
  draw_on draw (polygon bookmark_points text_color) ;;
  (* Add a small plus sign for larger icons *)
  (if 32 <=? size then
     let plus_size := size / 8 in
     let plus_x := size - plus_size - 2 in
     let plus_y := 2 in
     (* Draw plus background circle *)
     draw_on draw (ellipse [plus_x - 2; plus_y - 2;
                            plus_x + plus_size + 2; plus_y + plus_size + 2]
                           (52, 211, 153)) ;;
     (* Draw plus sign *)
     let plus_thickness := Z.max 1 (plus_size / 4) in
     draw_on draw (rectangle [plus_x + plus_size / 2 - plus_thickness / 2; plus_y;
                              plus_x + plus_size / 2 + plus_thickness / 2; plus_y + plus_size]
                             text_color) ;;
     draw_on draw (rectangle [plus_x; plus_y + plus_size / 2 - plus_thickness / 2;
                              plus_x + plus_size; plus_y + plus_size / 2 + plus_thickness / 2]
                             text_color)
   else ret tt) ;;
  (* Save the image *)
  Image_save img filename ;;
  print ("Created " +:+ filename +:+ " (" +:+ str_int size +:+ "x" +:+ str_int size +:+ ")").

(** [def main()] *)
Definition main : M unit :=
  (* Get the script directory *)
  file <- abspath_file ;;
  let script_dir := posixpath.dirname file in
  let icons_dir := posixpath.join (posixpath.dirname script_dir) ["extension"; "icons"] in
  (* Create icons directory if it doesn't exist *)
  os_makedirs icons_dir ;;
  (* Icon sizes required by Chrome Web Store *)
  let sizes := [16; 32; 48; 128] in
  for_each sizes (fun size =>
    let filename := posixpath.join icons_dir ["icon" +:+ str_int size +:+ ".png"] in
    create_icon size filename) ;;
  print (String "010" "✅ All icons created successfully!") ;;
  print2 "📁 Icons saved to:" icons_dir ;;
  print (String "010" "Next steps:") ;;
  print "1. Review the generated icons" ;;
  print "2. Consider creating custom icons with a design tool if needed" ;;
  print "3. Update your extension manifest if necessary".

(** [if __name__ == "__main__":] and the statements of its block *)
Definition main_block : M unit :=
  try_except main
    (print "❌ Error: Pillow library not found" ;;
     print "Install it with: pip install Pillow" ;;
     print "Or create icons manually using any image editor")
    (fun e =>
       print ("❌ Error creating icons: " +:+ str_exn e) ;;
       print "You can create icons manually using any image editor").

(** The module, run as a script: its statements in order.  [import os]
    always succeeds and the two [def]s only bind names. *)
Definition script : M unit :=
  import_PIL ;;
  main_block.

(** How the interpreter leaves: status 0 when the module ran to its end, a
    traceback and status 1 when an exception escaped it. *)
Inductive exit : Type :=
| Exit_normally
| Traceback (e : exn).

Definition exit_status (x : exit) : Z :=
  match x with
  | Exit_normally => 0
  | Traceback _ => 1
  end.

Definition run_script (w : world) : exit * world :=
  match script w with
  | (inr _, w') => (Exit_normally, w')
  | (inl e, w') => (Traceback e, w')
  end.

(** ** Observations and derived forms

    What the claims speak about, read off a run, and closed forms of what
    [create_icon] computes, proved equal to it below. *)

Definition bg_blue : color := (37, 99, 235).
Definition white : color := (255, 255, 255).
Definition badge_green : color := (52, 211, 153).

(** [Image.new('RGBA', (size, size), ...)] returns an image. *)
Definition allocates (size : Z) (w : world) : bool :=
  match new_error (size, size) w with
  | None => true
  | Some _ => false
  end.

(** The image object that a call of [create_icon] allocated, as the call
    left it, whether it returned or raised; none when [Image.new] raised. *)
Definition icon_of (size : Z) (filename : string) (w : world) : option Image :=
  heap (snd (create_icon size filename w)) !! length (heap w).

Definition uses_color (c : color) (im : Image) : Prop :=
  exists d, In d (im_drawn im) /\ fill_of d = c.

(** The list [bookmark_points] of lines 36-42, with the three [int(...)] of
    its elements evaluated in order. *)
Definition bookmark_points (size : Z) : exn + list Z :=
  match PyFloat.int_mul size PyFloat.lit_0_6 with
  | inl e => inl e
  | inr bookmark_height =>
      match PyFloat.int_mul bookmark_height PyFloat.lit_0_7 with
      | inl e => inl e
      | inr right_side =>
          match PyFloat.int_mul bookmark_height PyFloat.lit_0_9 with
          | inl e => inl e
          | inr bottom_point =>
              match PyFloat.int_mul bookmark_height PyFloat.lit_0_7 with
              | inl e => inl e
              | inr left_side =>
                  let bookmark_width := size / 2 in
                  let bookmark_x := (size - bookmark_width) / 2 in
                  let bookmark_y := (size - bookmark_height) / 2 in
                  inr [ bookmark_x; bookmark_y;
                        bookmark_x + bookmark_width; bookmark_y;
                        bookmark_x + bookmark_width; bookmark_y + right_side;
                        bookmark_x + bookmark_width / 2; bookmark_y + bottom_point;
                        bookmark_x; bookmark_y + left_side ]
              end
          end
      end
  end.

(** The drawing calls of the block under [if size >= 32]. *)
Definition badge_calls (size : Z) : list draw_call :=
  if 32 <=? size then
    let plus_size := size / 8 in
    let plus_x := size - plus_size - 2 in
    let plus_y := 2 in
    let plus_thickness := Z.max 1 (plus_size / 4) in
    [ ellipse [plus_x - 2; plus_y - 2; plus_x + plus_size + 2; plus_y + plus_size + 2]
              badge_green;
      rectangle [plus_x + plus_size / 2 - plus_thickness / 2; plus_y;
                 plus_x + plus_size / 2 + plus_thickness / 2; plus_y + plus_size] white;
      rectangle [plus_x; plus_y + plus_size / 2 - plus_thickness / 2;
                 plus_x + plus_size; plus_y + plus_size / 2 + plus_thickness / 2] white ]
  else [].

(** All the drawing calls of [create_icon size _] on the image it
    allocated, up to the exception when the glyph's geometry raises one. *)
Definition drawn_calls (size : Z) : list draw_call :=
  rounded_rectangle [size / 8; size / 8; size - size / 8; size - size / 8] (size / 6) bg_blue
  :: match bookmark_points size with
     | inl _ => []
     | inr pts => polygon pts white :: badge_calls size
     end.

Definition canvas (size : Z) : Image :=
  {| im_mode := "RGBA"; im_size := (size, size); im_color := (0, 0, 0, 0);
     im_drawn := drawn_calls size |}.

Definition created_line (size : Z) (filename : string) : string :=
  "Created " +:+ filename +:+ " (" +:+ str_int size +:+ "x" +:+ str_int size +:+ ")".

(** The world after [create_icon size filename] returned. *)
Definition after_create_icon (size : Z) (filename : string) (w : world) : world :=
  {| pillow_installed := pillow_installed w; script_file := script_file w;
     memory := memory w; stdout_encoding := stdout_encoding w;
     dirs := dirs w; files := <[filename := png (canvas size)]> (files w);
     heap := heap w ++ [canvas size];
     stdout := stdout w ++ [created_line size filename] |}.

(** The output directory and the targets of the driver. *)
Definition icons_dir_of (w : world) : string :=
  posixpath.join (posixpath.dirname (posixpath.dirname (script_file w)))
                 ["extension"; "icons"].

Definition icon_path (icons_dir : string) (size : Z) : string :=
  posixpath.join icons_dir ["icon" +:+ str_int size +:+ ".png"].

Definition summary_lines (icons_dir : string) : list string :=
  [ String "010" "✅ All icons created successfully!";
    "📁 Icons saved to:" +:+ " " +:+ icons_dir;
    String "010" "Next steps:";
    "1. Review the generated icons";
    "2. Consider creating custom icons with a design tool if needed";
    "3. Update your extension manifest if necessary" ].

(** The world after the loop of [main] when every call returned; [w1] is
    the world after [os.makedirs]. *)
Definition after_icons (icons_dir : string) (w1 : world) : world :=
  after_create_icon 128 (icon_path icons_dir 128)
    (after_create_icon 48 (icon_path icons_dir 48)
       (after_create_icon 32 (icon_path icons_dir 32)
          (after_create_icon 16 (icon_path icons_dir 16) w1))).

(** The world after a run of [main] whose every step returned. *)
Definition after_main (icons_dir : string) (w1 : world) : world :=
  let w5 := after_icons icons_dir w1 in
  with_stdout (stdout w5 ++ summary_lines icons_dir) w5.

(** What no statement of the script changes: the installation, the script's
    path, the memory and the encoding of the standard output. *)
Definition same_env (w w' : world) : Prop :=
  pillow_installed w' = pillow_installed w /\ script_file w' = script_file w /\
  memory w' = memory w /\ stdout_encoding w' = stdout_encoding w.

Definition keeps_env {A} (m : M A) : Prop := forall w, same_env w (snd (m w)).

(** A path component: no separator in it. *)
Fixpoint no_sep (s : string) : bool :=
  match s with
  | EmptyString => true
  | String c s' => negb (posixpath.is_sep c) && no_sep s'
  end.

(** A checkout of the repository under [/home/user], nothing generated
    yet, Pillow installed, a gigabyte of memory, and a UTF-8 terminal; the
    same machine without Pillow; and with an ASCII standard output. *)
Definition project_world : world :=
  {| pillow_installed := true;
     script_file := "/home/user/bookmarkable/scripts/create-icons.py";
     memory := 2 ^ 30;
     stdout_encoding := codecs.utf_8;
     dirs := {[ "/"; "/home"; "/home/user"; "/home/user/bookmarkable";
                "/home/user/bookmarkable/scripts" ]};
     files := ∅;
     heap := [];
     stdout := [] |}.

Definition world_without_pillow : world :=
  {| pillow_installed := false;
     script_file := script_file project_world;
     memory := memory project_world;
     stdout_encoding := codecs.utf_8;
     dirs := dirs project_world;
     files := ∅;
     heap := [];
     stdout := [] |}.


(** ** The claims' own words, where they differ from the code *)

(** The bookmark polygon with every height an exact floor: height
    [floor(size * 0.6)], sides at [floor(0.7 * height)], bottom point at
    [floor(0.9 * height)]. *)
Definition claimed_bookmark_points (size : Z) : list Z :=
  let width := size / 2 in
  let height := 6 * size / 10 in
  let x := (size - width) / 2 in
  let y := (size - height) / 2 in
  [ x; y;
    x + width; y;
    x + width; y + 7 * height / 10;
    x + width / 2; y + 9 * height / 10;
    x; y + 7 * height / 10 ].

(** A bar spans a box vertically (horizontally) when its top and bottom
    (left and right) are the box's. *)
Definition spans_vertically (bar box : list Z) : Prop :=
  nth 1 bar 0 = nth 1 box 0 /\ nth 3 bar 0 = nth 3 box 0.

Definition spans_horizontally (bar box : list Z) : Prop :=
  nth 0 bar 0 = nth 0 box 0 /\ nth 2 bar 0 = nth 2 box 0.

(** The plus sign as the claim has it: after the badge circle, two white
    bars that span the circle's bounding box. *)
Definition plus_spans_badge_box (im : Image) : Prop :=
  exists before box vbar hbar,
    im_drawn im = before ++ [ellipse box badge_green; rectangle vbar white; rectangle hbar white]
    /\ spans_vertically vbar box /\ spans_horizontally hbar box.

(** ** Boxes and further worlds *)

(** The bounding box that a drawing call takes, for the calls that take one. *)
Definition box_of (d : draw_call) : option (list Z) :=
  match d with
  | rounded_rectangle xy _ _ => Some xy
  | ellipse xy _ => Some xy
  | rectangle xy _ => Some xy
  | polygon _ _ => None
  end.

(** [xy] is a box [x0, y0, x1, y1] with [x0 <= x1] and [y0 <= y1] that lies
    inside the box [outer]. *)
Definition box_inside (xy outer : list Z) : Prop :=
  match xy, outer with
  | [x0; y0; x1; y1], [a0; b0; a1; b1] =>
      a0 <= x0 /\ x0 <= x1 /\ x1 <= a1 /\ b0 <= y0 /\ y0 <= y1 /\ y1 <= b1
  | _, _ => False
  end.

(** The checkout with a regular file where the directory [extension] is to
    be. *)
Definition world_with_file_in_the_way : world :=
  {| pillow_installed := true;
     script_file := script_file project_world;
     memory := memory project_world;
     stdout_encoding := codecs.utf_8;
     dirs := dirs project_world;
     files := {[ "/home/user/bookmarkable/extension" := data "notes" ]};
     heap := [];
     stdout := [] |}.

(** The checkout with the output directory in place and a directory named
    like the third icon. *)
Definition world_with_directory_in_the_way : world :=
  {| pillow_installed := true;
     script_file := script_file project_world;
     memory := memory project_world;
     stdout_encoding := codecs.utf_8;
     dirs := dirs project_world
             ∪ {[ "/home/user/bookmarkable/extension";
                  "/home/user/bookmarkable/extension/icons";
                  "/home/user/bookmarkable/extension/icons/icon48.png" ]};
     files := ∅;
     heap := [];
     stdout := [] |}.

(** * Facts *)

(** ** binary64 rounding, in integers *)

Module PyFloatFacts.
Import PyFloat.

(** [SpecFloat] counts the binary digits of a mantissa. *)
Lemma digits2_pos_log2 p : Zpos (digits2_pos p) = Z.log2 (Zpos p) + 1.
Proof.
  induction p as [p IH|p IH|]; simpl; trivial.
  - rewrite Pos2Z.inj_succ, IH. destruct p; simpl; lia.
  - rewrite Pos2Z.inj_succ, IH. destruct p; simpl; lia.
Qed.


(** One step of the right shift halves the mantissa and moves its last bit
    to the round bit, the old round bit into the sticky bit. *)
Lemma shr_1_div2 mrs : 0 <= shr_m mrs ->
  shr_m (shr_1 mrs) = shr_m mrs / 2 /\ shr_r (shr_1 mrs) = Z.odd (shr_m mrs)
  /\ shr_s (shr_1 mrs) = shr_r mrs || shr_s mrs.
Proof.
  destruct mrs as [m r s]; simpl. intros Hm.
  destruct m as [|[p|p|]|p]; simpl; try lia; repeat split; try reflexivity.
  - change (Z.pos p~1) with (2 * Z.pos p + 1). apply Z.div_unique with 1; lia.
  - change (Z.pos p~0) with (2 * Z.pos p). apply Z.div_unique with 0; lia.
Qed.

Lemma shr_1_inv M k mrs : 0 <= M -> 0 <= k -> shr_inv M k mrs -> shr_inv M (k + 1) (shr_1 mrs).
Proof.
  intros HM Hk (Hm & Hr & Hs).
  assert (H0 : 0 <= shr_m mrs) by (rewrite Hm; apply Z.div_pos; [lia|apply Z.pow_pos_nonneg; lia]).
  destruct (shr_1_div2 mrs H0) as (Em & Er & Es).
  unfold shr_inv. rewrite Em, Er, Es, Hm, Hr, Hs.
  replace (k + 1 - 1) with k by lia.
  assert (Hp : 0 < 2 ^ k) by (apply Z.pow_pos_nonneg; lia).
  split; [|split].
  - rewrite Z.pow_add_r, Z.pow_1_r by lia. rewrite Z.div_div by lia. reflexivity.
  - replace (0 <? k + 1) with true by (symmetry; apply Z.ltb_lt; lia). simpl.
    rewrite Z.testbit_odd, Z.shiftr_div_pow2 by lia. reflexivity.
  - replace (0 <? k + 1) with true by (symmetry; apply Z.ltb_lt; lia). simpl.
    destruct (Z.ltb_spec 0 k) as [Hk'|Hk']; simpl.
    + assert (Hp' : 0 < 2 ^ (k - 1)) by (apply Z.pow_pos_nonneg; lia).
      assert (E2 : 2 ^ k = 2 ^ (k - 1) * 2).
      { replace k with (k - 1 + 1) at 1 by lia. rewrite Z.pow_add_r by lia. reflexivity. }
      rewrite Z.testbit_odd, Z.shiftr_div_pow2 by lia.
      assert (E : M mod 2 ^ k = M mod 2 ^ (k - 1) + 2 ^ (k - 1) * ((M / 2 ^ (k - 1)) mod 2)).
      { rewrite E2. rewrite Z.rem_mul_r by lia. reflexivity. }
      rewrite E, Zmod_odd.
      pose proof (Z.mod_pos_bound M (2 ^ (k - 1)) Hp') as B1.
      destruct (Z.odd (M / 2 ^ (k - 1))); simpl;
        destruct (Z.eqb_spec (M mod 2 ^ (k - 1)) 0) as [e0|n0]; simpl; symmetry;
        try (apply negb_true_iff, Z.eqb_neq; lia);
        try (apply negb_false_iff, Z.eqb_eq; lia).
    + assert (k = 0) as -> by lia. simpl. rewrite Z.mod_1_r. reflexivity.
Qed.

Lemma iter_shr_inv M p : 0 <= M -> forall k mrs, 0 <= k ->
  shr_inv M k mrs -> shr_inv M (k + Zpos p) (SpecFloat.iter_pos shr_1 p mrs).
Proof.
  intros HM. induction p as [p IH|p IH|]; intros k mrs Hk H; simpl.
  - replace (k + Z.pos p~1) with (k + 1 + Z.pos p + Z.pos p) by lia.
    apply IH; [lia|]. apply IH; [lia|]. apply shr_1_inv; assumption.
  - replace (k + Z.pos p~0) with (k + Z.pos p + Z.pos p) by lia.
    apply IH; [lia|]. apply IH; assumption.
  - apply shr_1_inv; assumption.
Qed.

(** Rounding on the round and sticky bits is rounding to nearest, ties to
    even. *)
Lemma round_shr_inv M k mrs : 0 <= M -> 0 < k -> shr_inv M k mrs ->
  round_nearest_even (shr_m mrs) (loc_of_shr_record mrs) = rne M k.
Proof.
  intros HM Hk (Hm & Hr & Hs). destruct mrs as [m r s]; simpl in *.
  replace (0 <? k) with true in * by (symmetry; apply Z.ltb_lt; lia). simpl in *.
  assert (Hp' : 0 < 2 ^ (k - 1)) by (apply Z.pow_pos_nonneg; lia).
  assert (E2 : 2 ^ k = 2 ^ (k - 1) * 2).
  { replace k with (k - 1 + 1) at 1 by lia. rewrite Z.pow_add_r by lia. reflexivity. }
  assert (E : M mod 2 ^ k = M mod 2 ^ (k - 1) + 2 ^ (k - 1) * ((M / 2 ^ (k - 1)) mod 2)).
  { rewrite E2. rewrite Z.rem_mul_r by lia. reflexivity. }
  rewrite Z.testbit_odd, Z.shiftr_div_pow2 in Hr by lia.
  rewrite Zmod_odd, <- Hr in E.
  pose proof (Z.mod_pos_bound M (2 ^ (k - 1)) Hp') as B1.
  unfold rne. rewrite <- Hm.
  destruct r; destruct (Z.eqb_spec (M mod 2 ^ (k - 1)) 0) as [e0|n0];
    cbn [negb] in Hs; subst s; cbn [loc_of_shr_record round_nearest_even].
  - replace (2 * _ ?= 2 ^ k) with Eq by (symmetry; apply Z.compare_eq_iff; lia). reflexivity.
  - replace (2 * _ ?= 2 ^ k) with Gt by (symmetry; apply Z.compare_gt_iff; lia). reflexivity.
  - replace (2 * _ ?= 2 ^ k) with Lt by (symmetry; apply Z.compare_lt_iff; lia). reflexivity.
  - replace (2 * _ ?= 2 ^ k) with Lt by (symmetry; apply Z.compare_lt_iff; lia). reflexivity.
Qed.

Lemma shr_exact_spec M k : 0 <= M -> 0 < k ->
  let '(mrs, e') := shr (Build_shr_record M false false) 0 k in
  shr_inv M k mrs /\ e' = k.
Proof.
  intros HM Hk. destruct k as [|p|p]; try lia. simpl. split; [|reflexivity].
  apply (iter_shr_inv M p HM 0); [lia|].
  unfold shr_inv; simpl. rewrite Z.div_1_r. auto.
Qed.

(** The rounded quotient is within half a unit of the exact one. *)
Lemma rne_bounds M k : 0 <= M -> 0 < k ->
  M / 2 ^ k <= rne M k <= M / 2 ^ k + 1 /\
  2 * Z.abs (rne M k * 2 ^ k - M) <= 2 ^ k.
Proof.
  intros HM Hk. unfold rne.
  assert (Hp : 0 < 2 ^ k) by (apply Z.pow_pos_nonneg; lia).
  pose proof (Z.div_mod M (2 ^ k) ltac:(lia)) as D.
  pose proof (Z.mod_pos_bound M (2 ^ k) Hp) as B.
  destruct (Z.compare_spec (2 * (M mod 2 ^ k)) (2 ^ k)); [destruct (Z.even _)|..]; split; nia.
Qed.

Lemma log2_rne M k : 0 < M -> k = Z.log2 M + 1 - prec -> 0 < k ->
  2 ^ (prec - 1) <= rne M k <= 2 ^ prec.
Proof.
  intros HM -> Hk.
  destruct (rne_bounds M (Z.log2 M + 1 - 53) ltac:(lia) Hk) as [B _].
  destruct (Z.log2_spec M HM) as [L1 L2].
  set (k := Z.log2 M + 1 - 53) in *.
  assert (Hp : 0 < 2 ^ k) by (apply Z.pow_pos_nonneg; lia).
  assert (E1 : 2 ^ Z.log2 M = 2 ^ 52 * 2 ^ k).
  { rewrite <- Z.pow_add_r by lia. f_equal. lia. }
  assert (E2 : 2 ^ Z.succ (Z.log2 M) = 2 ^ 53 * 2 ^ k).
  { rewrite <- Z.pow_add_r by lia. f_equal. lia. }
  assert (2 ^ 52 <= M / 2 ^ k) by (apply Z.div_le_lower_bound; lia).
  assert (M / 2 ^ k < 2 ^ 53) by (apply Z.div_lt_upper_bound; lia).
  lia.
Qed.

Lemma fexp_eq x : fexp prec emax x = Z.max (x - 53) (- 1074).
Proof. reflexivity. Qed.

(** [SpecFloat]'s rounding of a positive [m * 2^e] above the subnormal
    range is [round53], with an infinity when the exponent overflows. *)
Lemma binary_round_aux_spec m e : - 1074 <= e ->
  binary_round_aux prec emax false (Zpos m) e loc_Exact =
  let '(m2, e2) := round53 (Zpos m) e in
  if e2 <=? emax - prec then S754_finite false (Z.to_pos m2) e2 else S754_infinity false.
Proof.
  intros He. unfold binary_round_aux, round53, shr_fexp.
  unfold Zdigits2 at 1. rewrite digits2_pos_log2.
  set (k := Z.log2 (Z.pos m) + 1 - prec).
  assert (Hf : forall d, - 1074 <= d - prec + e -> fexp prec emax (d + e) - e = d - prec).
  { intros d Hd. rewrite fexp_eq. lia. }
  destruct (Z.leb_spec k 0) as [Hk|Hk].
  - assert (Hs : fexp prec emax (Z.log2 (Z.pos m) + 1 + e) - e <= 0).
    { rewrite fexp_eq. unfold k in *. lia. }
    assert (Hshr : forall mrs, shr mrs e (fexp prec emax (Z.log2 (Z.pos m) + 1 + e) - e) = (mrs, e)).
    { intros mrs. destruct (fexp prec emax (Z.log2 (Z.pos m) + 1 + e) - e); try reflexivity; lia. }
    rewrite Hshr. cbn [shr_record_of_loc shr_m loc_of_shr_record round_nearest_even Zdigits2].
    rewrite digits2_pos_log2, Hshr. reflexivity.
  - rewrite Hf by (unfold k in *; lia). fold k.
    pose proof (shr_exact_spec (Zpos m) k ltac:(lia) Hk) as S1.
    assert (Hshift : forall mrs, shr mrs e k = (fst (shr mrs 0 k), e + k)).
    { intros mrs. unfold shr. destruct k; try lia. reflexivity. }
    rewrite Hshift. simpl shr_record_of_loc.
    destruct (shr {| shr_m := Z.pos m; shr_r := false; shr_s := false |} 0 k) as [mrs e'].
    destruct S1 as [Inv _]. simpl fst.
    rewrite (round_shr_inv (Zpos m) k mrs ltac:(lia) Hk Inv).
    pose proof (log2_rne (Zpos m) k ltac:(lia) eq_refl Hk) as B.
    set (m1 := rne (Z.pos m) k) in *.
    destruct (Z.eqb_spec m1 (2 ^ prec)) as [E|N].
    + rewrite E. vm_compute Zdigits2.
      assert (fexp prec emax (54 + (e + k)) - (e + k) = 1) as -> by (rewrite fexp_eq; lia).
      reflexivity.
    + assert (Hd : Zdigits2 m1 = prec).
      { destruct m1 as [|p1|p1]; try lia. simpl.
        rewrite digits2_pos_log2. 
        assert (Z.log2 (Zpos p1) = 52); [|lia].
        apply Z.log2_unique; lia. }
      rewrite Hd.
      assert (fexp prec emax (prec + (e + k)) - (e + k) = 0) as -> by (rewrite fexp_eq; lia).
      simpl. destruct m1; try lia. reflexivity.
Qed.



Lemma log2_52 m : 2 ^ 52 <= m < 2 ^ 53 -> Z.log2 m = 52.
Proof. intros H. apply Z.log2_unique; lia. Qed.

Lemma round53_canonical m e : 2 ^ 52 <= m < 2 ^ 53 -> round53 m e = (m, e).
Proof. intros H. unfold round53. rewrite (log2_52 m H). reflexivity. Qed.

(* rounding a large positive integer to 53 significant bits *)
Lemma round53_spec m e : 2 ^ 53 <= m ->
  exists m2 j, round53 m e = (m2, e + j) /\ 2 ^ 52 <= m2 < 2 ^ 53 /\
    Z.log2 m - 52 <= j <= Z.log2 m - 51 /\ 2 * Z.abs (m2 * 2 ^ j - m) <= 2 ^ j.
Proof.
  intros Hm. unfold round53.
  assert (L : 53 <= Z.log2 m) by (apply Z.log2_le_pow2; lia).
  set (k := Z.log2 m + 1 - prec). assert (Hk : 0 < k) by (unfold k; lia).
  destruct (Z.leb_spec k 0); [lia|].
  pose proof (log2_rne m k ltac:(lia) eq_refl Hk) as B.
  destruct (rne_bounds m k ltac:(lia) Hk) as [_ A].
  assert (Hp : 0 < 2 ^ k) by (apply Z.pow_pos_nonneg; lia).
  destruct (Z.eqb_spec (rne m k) (2 ^ prec)) as [E|N].
  - exists (2 ^ 52), (k + 1). rewrite Z.add_assoc. split; [reflexivity|].
    split; [lia|]. split; [unfold k; lia|].
    rewrite E in A. rewrite Z.pow_add_r by lia. lia.
  - exists (rne m k), k. split; [reflexivity|]. unfold k in *. repeat split; try lia.
Qed.


Lemma iter_xO_pow2 p d : Zpos (Pos.iter xO p d) = Zpos p * 2 ^ Zpos d.
Proof.
  rewrite <- Z.shiftl_mul_pow2 by lia. unfold Z.shiftl.
  apply (Pos.iter_swap_gen _ _ Zpos xO (Z.mul 2)). reflexivity.
Qed.

Lemma repr_small n : 0 < n < 2 ^ 53 ->
  2 ^ 52 <= n * 2 ^ (52 - Z.log2 n) < 2 ^ 53.
Proof.
  intros H. destruct (Z.log2_spec n ltac:(lia)) as [L1 L2].
  assert (L : Z.log2 n < 53) by (apply Z.log2_lt_pow2; lia).
  pose proof (Z.log2_nonneg n).
  assert (Hp : 0 < 2 ^ (52 - Z.log2 n)) by (apply Z.pow_pos_nonneg; lia).
  assert (E1 : 2 ^ 52 = 2 ^ Z.log2 n * 2 ^ (52 - Z.log2 n)).
  { rewrite <- Z.pow_add_r by lia. f_equal. lia. }
  assert (E2 : 2 ^ 53 = 2 ^ Z.succ (Z.log2 n) * 2 ^ (52 - Z.log2 n)).
  { rewrite <- Z.pow_add_r by lia. f_equal. lia. }
  rewrite E1 at 1. rewrite E2. nia.
Qed.

(** [float(n)] for a positive [n]. *)
Lemma of_int_spec n : 0 < n ->
  of_int n =
  let '(m, e) := repr n in
  if e <=? 971 then inr (S754_finite false (Z.to_pos m) e) else inl (OverflowError "int too large to convert to float").
Proof.
  intros Hn. destruct n as [|p|p]; try lia.
  unfold of_int, repr, binary_normalize, binary_round.
  rewrite digits2_pos_log2, fexp_eq.
  pose proof (Z.log2_nonneg (Zpos p)) as L0.
  destruct (Z.ltb_spec (Zpos p) (2 ^ 53)) as [Hs|Hb].
  - assert (L : Z.log2 (Zpos p) < 53) by (apply Z.log2_lt_pow2; lia).
    pose proof (repr_small (Zpos p) ltac:(lia)) as C.
    unfold shl_align.
    replace (Z.max (Z.log2 (Z.pos p) + 1 + 0 - 53) (-1074)) with (Z.log2 (Zpos p) - 52) by lia.
    rewrite Z.sub_0_r.
    remember (Z.log2 (Zpos p) - 52) as s eqn:Es. destruct s as [|d|d]; try lia.
    + replace (52 - Z.log2 (Zpos p)) with 0 in * by lia.
      rewrite Z.mul_1_r in *.
      rewrite binary_round_aux_spec by lia.
      rewrite round53_canonical by lia. reflexivity.
    + replace (52 - Z.log2 (Zpos p)) with (Zpos d) in * by lia.
      rewrite binary_round_aux_spec by lia. rewrite iter_xO_pow2.
      rewrite round53_canonical by lia. reflexivity.
  - assert (L : 53 <= Z.log2 (Zpos p)) by (apply Z.log2_le_pow2; lia).
    unfold shl_align.
    replace (Z.max (Z.log2 (Z.pos p) + 1 + 0 - 53) (-1074)) with (Z.log2 (Zpos p) - 52) by lia.
    remember (Z.log2 (Zpos p) - 52 - 0) as s eqn:Es. destruct s as [|d|d]; try lia.
    rewrite binary_round_aux_spec by lia.
    destruct (round53 (Zpos p) 0) as [m2 e2]. change (1024 - 53) with 971.
    destruct (e2 <=? 971); reflexivity.
Qed.


Lemma repr_spec n : 0 < n ->
  exists m e, repr n = (m, e) /\ 2 ^ 52 <= m < 2 ^ 53 /\ - 52 <= e /\
    (e <= 0 -> m = n * 2 ^ (- e)) /\ (0 < e -> 2 * Z.abs (m * 2 ^ e - n) <= 2 ^ e).
Proof.
  intros Hn. unfold repr. destruct (Z.ltb_spec n (2 ^ 53)) as [Hs|Hb].
  - assert (L : Z.log2 n < 53) by (apply Z.log2_lt_pow2; lia).
    pose proof (Z.log2_nonneg n).
    exists (n * 2 ^ (52 - Z.log2 n)), (Z.log2 n - 52).
    split; [reflexivity|]. split; [apply repr_small; lia|].
    split; [lia|]. split; [|lia]. intros _. do 2 f_equal. lia.
  - destruct (round53_spec n 0 Hb) as (m2 & j & E & C & J & A).
    assert (L : 53 <= Z.log2 n) by (apply Z.log2_le_pow2; lia).
    exists m2, j. rewrite E. split; [reflexivity|]. repeat split; try lia.
Qed.

(** [int(n * c)] for a positive [n] and a constant [c = Mc * 2^-53] in
    [1/2, 1): the product of the mantissas, rounded to 53 bits with an
    error of at most half a unit in the last place, then truncated. *)
Lemma int_mul_spec n Mc m e : 0 < n -> 2 ^ 52 <= Zpos Mc < 2 ^ 53 ->
  repr n = (m, e) -> e <= 971 ->
  exists m2 j, (j = 52 \/ j = 53) /\ 2 ^ 52 <= m2 < 2 ^ 53 /\
    2 * Z.abs (m2 * 2 ^ j - m * Zpos Mc) <= 2 ^ j /\
    int_mul n (S754_finite false Mc (- 53)) =
      inr (if 0 <=? e - 53 + j then m2 * 2 ^ (e - 53 + j) else m2 / 2 ^ (- (e - 53 + j))).
Proof.
  intros Hn HMc Hr He.
  destruct (repr_spec n Hn) as (m' & e' & Hr' & Cm & Ce & _).
  rewrite Hr in Hr'. injection Hr' as <- <-.
  unfold int_mul, mul. rewrite of_int_spec, Hr by assumption.
  replace (e <=? 971) with true by (symmetry; apply Z.leb_le; lia).
  destruct m as [|pm|pm]; try lia.
  cbn [Z.to_pos SFmul xorb]. rewrite binary_round_aux_spec by lia.
  rewrite Pos2Z.inj_mul.
  assert (P1 : 2 ^ 104 <= Zpos pm * Zpos Mc) by nia.
  assert (P2 : Zpos pm * Zpos Mc <= (2 ^ 53 - 1) * (2 ^ 53 - 1)) by nia.
  destruct (round53_spec (Zpos pm * Zpos Mc) (e + - 53) ltac:(lia)) as (m2 & j & E & C & J & A).
  assert (HL : 104 <= Z.log2 (Zpos pm * Zpos Mc) <= 105).
  { split; [apply Z.log2_le_pow2; lia | ].
    assert (Z.log2 (Zpos pm * Zpos Mc) < 106); [apply Z.log2_lt_pow2; lia | lia]. }
  assert (Hj : j = 52 \/ j = 53).
  { destruct (Z.eq_dec j 54) as [->|]; [|lia]. exfalso. lia. }
  exists m2, j. split; [exact Hj|]. split; [exact C|]. split; [exact A|].
  rewrite E. change (1024 - 53) with 971.
  replace (e + -53 + j <=? 971) with true by (symmetry; apply Z.leb_le; lia).
  destruct m2 as [|p2|p2]; try lia.
  cbn [to_int Z.to_pos cond_Zopp].
  replace (e + -53 + j) with (e - 53 + j) by lia. reflexivity.
Qed.

(** The same for [n < 2^50], where [float(n)] is exact: [u] is the power of
    two that scales [n] to a 53-bit mantissa. *)
Lemma int_mul_small n Mc : 0 < n < 2 ^ 50 -> 2 ^ 52 <= Zpos Mc < 2 ^ 53 ->
  exists u m2 j, 8 <= u /\ 2 ^ 52 <= n * u < 2 ^ 53 /\ (j = 52 \/ j = 53) /\
    2 ^ 52 <= m2 < 2 ^ 53 /\
    2 * Z.abs (m2 * 2 ^ j - n * u * Zpos Mc) <= 2 ^ j /\
    int_mul n (S754_finite false Mc (- 53)) = inr (m2 / (2 ^ (53 - j) * u)).
Proof.
  intros Hn HMc.
  assert (L : Z.log2 n < 50) by (apply Z.log2_lt_pow2; lia).
  pose proof (Z.log2_nonneg n) as L0.
  assert (Hr : repr n = (n * 2 ^ (52 - Z.log2 n), Z.log2 n - 52)).
  { unfold repr. destruct (Z.ltb_spec n (2 ^ 53)); [reflexivity|lia]. }
  destruct (int_mul_spec n Mc _ _ ltac:(lia) HMc Hr ltac:(lia)) as (m2 & j & Hj & C & A & E).
  exists (2 ^ (52 - Z.log2 n)), m2, j.
  split. { change 8 with (2 ^ 3). apply Z.pow_le_mono_r; lia. }
  split. { apply repr_small. lia. }
  split; [exact Hj|]. split; [exact C|]. split; [exact A|].
  rewrite E. destruct (Z.leb_spec 0 (Z.log2 n - 52 - 53 + j)); [lia|].
  rewrite <- Z.pow_add_r by lia. do 3 f_equal. lia.
Qed.


(** Below [2^50], [int(n * 0.6)] is the floor of 6n/10: the literal is
    [(3 * 2^53 - 1) / 5 * 2^-53], just below 3/5, and the rounding makes up
    for it on the multiples of 5. *)
Lemma int_mul_0_6 n : 0 <= n < 2 ^ 50 ->
  int_mul n (S754_finite false 5404319552844595%positive (- 53)) = inr (6 * n / 10).
Proof.
  intros Hn. destruct (Z.eq_dec n 0) as [->|Hz]; [reflexivity|].
  destruct (int_mul_small n 5404319552844595%positive ltac:(lia) ltac:(lia)) as (u & m2 & j & Hu & Hm & Hj & C & A & E).
  rewrite E. f_equal.
  pose proof (Z.div_mod (6 * n) 10 ltac:(lia)) as D.
  pose proof (Z.mod_pos_bound (6 * n) 10 ltac:(lia)) as B.
  set (q := 6 * n / 10) in *. set (r := (6 * n) mod 10) in *.
  assert (Hqu : 6 * (n * u) = 10 * (q * u) + r * u) by nia.
  assert (Hru : 0 <= r * u <= 9 * u) by nia.
  assert (Hr0 : r = 0 \/ u <= r * u) by nia.
  assert (Hn5 : r = 0 -> 5 * (q * u) = 3 * (n * u)) by nia.
  symmetry. apply Z.div_unique_pos with (m2 - q * (2 ^ (53 - j) * u)).
  - destruct Hj as [-> | ->];
      [change (2 ^ (53 - 52)) with 2 | change (2 ^ (53 - 53)) with 1]; lia.
  - nia.
Qed.

(** The literal [0.9] is just above 9/10: [int(n * 0.9)] is the floor of
    9n/10. *)
Lemma int_mul_0_9 n : 0 <= n < 2 ^ 50 ->
  int_mul n (S754_finite false 8106479329266893%positive (- 53)) = inr (9 * n / 10).
Proof.
  intros Hn. destruct (Z.eq_dec n 0) as [->|Hz]; [reflexivity|].
  destruct (int_mul_small n 8106479329266893%positive ltac:(lia) ltac:(lia)) as (u & m2 & j & Hu & Hm & Hj & C & A & E).
  rewrite E. f_equal.
  pose proof (Z.div_mod (9 * n) 10 ltac:(lia)) as D.
  pose proof (Z.mod_pos_bound (9 * n) 10 ltac:(lia)) as B.
  set (q := 9 * n / 10) in *. set (r := (9 * n) mod 10) in *.
  assert (Hqu : 9 * (n * u) = 10 * (q * u) + r * u) by nia.
  assert (Hru : 0 <= r * u <= 9 * u) by nia.
  symmetry. apply Z.div_unique_pos with (m2 - q * (2 ^ (53 - j) * u)).
  - destruct Hj as [-> | ->];
      [change (2 ^ (53 - 52)) with 2 | change (2 ^ (53 - 53)) with 1]; lia.
  - nia.
Qed.

(** The literal [0.7] is [2^-52 / 5] below 7/10, which the rounding does not
    always make up for on the multiples of 10: [int(n * 0.7)] is the floor
    of 7n/10 or one less. *)
Lemma int_mul_0_7 n : 0 <= n < 2 ^ 50 ->
  exists t, int_mul n (S754_finite false 6305039478318694%positive (- 53)) = inr t /\
    7 * n / 10 - 1 <= t <= 7 * n / 10 /\ (n mod 10 <> 0 -> t = 7 * n / 10) /\ 0 <= t.
Proof.
  intros Hn. destruct (Z.eq_dec n 0) as [->|Hz].
  { exists 0. split; [reflexivity|]. change (7 * 0 / 10) with 0. change (0 mod 10) with 0. lia. }
  destruct (int_mul_small n 6305039478318694%positive ltac:(lia) ltac:(lia)) as (u & m2 & j & Hu & Hm & Hj & C & A & E).
  rewrite E. eexists; split; [reflexivity|].
  pose proof (Z.div_mod (7 * n) 10 ltac:(lia)) as D.
  pose proof (Z.mod_pos_bound (7 * n) 10 ltac:(lia)) as B.
  set (q := 7 * n / 10) in *. set (r := (7 * n) mod 10) in *.
  assert (Hqu : 7 * (n * u) = 10 * (q * u) + r * u) by nia.
  assert (Hru : 0 <= r * u <= 9 * u) by nia.
  assert (Hr0 : r = 0 \/ u <= r * u) by nia.
  assert (Hd : 0 < 2 ^ (53 - j) * u) by (apply Z.mul_pos_pos; [apply Z.pow_pos_nonneg|]; lia).
  assert (Hq : 1 <= q \/ (q = 0 /\ 1 <= r)) by lia.
  split; [split|split].
  - destruct Hq as [Hq|[Hq Hr]].
    + apply Z.div_le_lower_bound; [lia|].
      destruct Hj as [-> | ->];
        [change (2 ^ (53 - 52)) with 2 | change (2 ^ (53 - 53)) with 1]; lia.
    + rewrite Hq. assert (0 <= m2 / (2 ^ (53 - j) * u)); [apply Z.div_pos; lia | lia].
  - assert (m2 / (2 ^ (53 - j) * u) < q + 1); [|lia].
    apply Z.div_lt_upper_bound; [lia|].
    destruct Hj as [-> | ->];
      [change (2 ^ (53 - 52)) with 2 | change (2 ^ (53 - 53)) with 1]; lia.
  - intros Hmod.
    assert (r <> 0).
    { unfold r. intros Hr. apply Hmod. 
      pose proof (Z.div_mod n 10 ltac:(lia)). pose proof (Z.mod_pos_bound n 10 ltac:(lia)).
      fold r in Hr. lia. }
    symmetry. apply Z.div_unique_pos with (m2 - q * (2 ^ (53 - j) * u)); [|nia].
    destruct Hj as [-> | ->];
      [change (2 ^ (53 - 52)) with 2 | change (2 ^ (53 - 53)) with 1]; lia.
  - apply Z.div_pos; lia.
Qed.

End PyFloatFacts.

(** ** Paths *)

Module posixpathFacts.
Import posixpath.

Lemma app_cons c s t : String c s +:+ t = String c (s +:+ t).
Proof. reflexivity. Qed.

Lemma app_assoc s t u : (s +:+ t) +:+ u = s +:+ (t +:+ u).
Proof. induction s as [|c s IH]; [reflexivity|]. rewrite !app_cons, IH. reflexivity. Qed.









Lemma no_sep_startswith name : no_sep name = true -> startswith_sep name = false.
Proof.
  destruct name as [|c name]; [reflexivity|]. cbn [no_sep startswith_sep].
  intros [Hc _]%andb_prop. apply negb_true_iff in Hc. exact Hc.
Qed.





Lemma join2_root b : startswith_sep b = false ->
  join2 (String sep EmptyString) b = String sep b.
Proof. intros Hb. unfold join2. rewrite Hb. reflexivity. Qed.

End posixpathFacts.


(** ** Runs of [create_icon] and [main] *)

Ltac div_lia := cbv beta; Z.div_mod_to_equations; lia.

Lemma alter_last {A} (f : A -> A) (l : list A) (x : A) :
  alter f (length l) (l ++ [x]) = l ++ [f x].
Proof. induction l as [|a l IH]; simpl; [reflexivity|]. f_equal. exact IH. Qed.

Lemma lookup_last {A} (l : list A) (x : A) : (l ++ [x]) !! length l = Some x.
Proof. induction l as [|a l IH]; simpl; [reflexivity|exact IH]. Qed.

Lemma lookup_end {A} (l : list A) : l !! length l = None.
Proof. induction l as [|a l IH]; simpl; [reflexivity|exact IH]. Qed.

(** [Image.new] returns for the sizes from 0 to [INT_MAX / 4 - 1] whose
    raster of four bytes a pixel the memory can take. *)
Lemma allocates_spec size w :
  allocates size w = true <-> 0 <= size <= 536870910 /\ 4 * size * size <= memory w.
Proof.
  unfold allocates, new_error, c_int_error, INT_MAX.
  change (2 ^ 63) with 9223372036854775808. change (2 ^ 31) with 2147483648.
  change ((2147483648 - 1) / 4 - 1) with 536870910.
  rewrite orb_diag.
  destruct (Z.ltb_spec size 0); cbn [orb]; [split; [discriminate|lia]|].
  destruct (Z.leb_spec 9223372036854775808 size); [split; [discriminate|lia]|].
  destruct (Z.leb_spec 2147483648 size); [split; [discriminate|lia]|].
  destruct (Z.ltb_spec 536870910 size); cbn [orb]; [split; [discriminate|lia]|].
  destruct (Z.ltb_spec (memory w) (4 * size * size)); [split; [discriminate|lia]|].
  split; [lia|reflexivity].
Qed.

(** The glyph's geometry below [2^50], where the products are exact up to
    the rounding of [0.7]. *)
Lemma bookmark_points_small size : 0 <= size < 2 ^ 50 ->
  exists side,
    PyFloat.int_mul size PyFloat.lit_0_6 = inr (6 * size / 10) /\
    PyFloat.int_mul (6 * size / 10) PyFloat.lit_0_7 = inr side /\
    PyFloat.int_mul (6 * size / 10) PyFloat.lit_0_9 = inr (9 * (6 * size / 10) / 10) /\
    7 * (6 * size / 10) / 10 - 1 <= side <= 7 * (6 * size / 10) / 10 /\
    ((6 * size / 10) mod 10 <> 0 -> side = 7 * (6 * size / 10) / 10) /\
    0 <= side /\
    bookmark_points size =
      inr [ (size - size / 2) / 2; (size - 6 * size / 10) / 2;
            (size - size / 2) / 2 + size / 2; (size - 6 * size / 10) / 2;
            (size - size / 2) / 2 + size / 2; (size - 6 * size / 10) / 2 + side;
            (size - size / 2) / 2 + size / 2 / 2;
            (size - 6 * size / 10) / 2 + 9 * (6 * size / 10) / 10;
            (size - size / 2) / 2; (size - 6 * size / 10) / 2 + side ].
Proof.
  intros Hs.
  assert (Hh : 0 <= 6 * size / 10 < 2 ^ 50) by div_lia.
  pose proof (PyFloatFacts.int_mul_0_6 size Hs) as E6.
  pose proof (PyFloatFacts.int_mul_0_9 (6 * size / 10) Hh) as E9.
  destruct (PyFloatFacts.int_mul_0_7 (6 * size / 10) Hh) as (side & E7 & B7 & X7 & P7).
  exists side. repeat split; try assumption; try lia.
  unfold bookmark_points, PyFloat.lit_0_6, PyFloat.lit_0_7, PyFloat.lit_0_9.
  rewrite E6, E7, E9. reflexivity.
Qed.

Lemma allocates_bookmark_points size w : allocates size w = true ->
  exists pts, bookmark_points size = inr pts.
Proof.
  intros H. apply allocates_spec in H as [H _].
  destruct (bookmark_points_small size ltac:(lia)) as (side & _ & _ & _ & _ & _ & _ & E).
  eexists. exact E.
Qed.

Lemma im_size_record_call d im : im_size (record_call d im) = im_size im.
Proof. reflexivity. Qed.

(** [create_icon], in closed form. *)
Lemma create_icon_spec size filename w :
  create_icon size filename w =
  match new_error (size, size) w with
  | Some e => (inl e, w)
  | None =>
      let w1 := with_heap (heap w ++ [canvas size]) w in
      match bookmark_points size with
      | inl e => (inl e, w1)
      | inr _ =>
          if writable filename w
          then if size =? 0
               then (inl (ValueError "tile cannot extend outside image"),
                     with_fs (dirs w) (alter (fun _ => data EmptyString) filename (files w)) w1)
               else if codecs.encodable (stdout_encoding w) (created_line size filename)
                    then (inr tt, after_create_icon size filename w)
                    else (inl (UnicodeEncodeError (stdout_encoding w)
                                                  (created_line size filename)),
                          with_fs (dirs w) (<[filename := png (canvas size)]> (files w)) w1)
          else (inl (open_error filename w), w1)
      end
  end.
Proof.
  unfold create_icon. unfold bind at 1. unfold Image_new.
  destruct (new_error (size, size) w) as [e|]; [reflexivity|].
  unfold after_create_icon, canvas, drawn_calls, bookmark_points, created_line.
  unfold bind, ImageDraw_Draw, ret, eval, draw_on. cbn [heap with_heap].
  rewrite alter_last.
  destruct (PyFloat.int_mul size PyFloat.lit_0_6) as [e|h]; [reflexivity|].
  destruct (PyFloat.int_mul h PyFloat.lit_0_7) as [e|r]; [reflexivity|].
  destruct (PyFloat.int_mul h PyFloat.lit_0_9) as [e|b]; [reflexivity|].
  cbv beta iota zeta. cbn [heap with_heap]. rewrite alter_last.
  unfold badge_calls. destruct (32 <=? size); cbv beta iota zeta; cbn [heap with_heap];
    rewrite ?alter_last; unfold Image_save, print, is_empty;
    cbn [heap with_heap dirs files stdout with_fs stdout_encoding];
    rewrite lookup_last, !im_size_record_call; cbn [im_size fst snd]; rewrite orb_diag;
    unfold writable; cbn [heap with_heap dirs files stdout with_fs];
    destruct (negb (bool_decide (filename ∈ dirs w))
              && bool_decide (posixpath.dirname filename ∈ dirs w));
    try reflexivity;
    destruct (size =? 0); try reflexivity;
    cbn [heap with_heap dirs files stdout with_fs stdout_encoding];
    match goal with
    | |- context [codecs.encodable ?a ?b] => destruct (codecs.encodable a b)
    end; reflexivity.
Qed.

(** The calls of [create_icon] that return. *)
Lemma create_icon_returns size filename w w' :
  create_icon size filename w = (inr tt, w') <->
  allocates size w = true /\ 0 < size /\ writable filename w = true /\
  codecs.encodable (stdout_encoding w) (created_line size filename) = true /\
  w' = after_create_icon size filename w.
Proof.
  rewrite create_icon_spec. unfold allocates.
  destruct (new_error (size, size) w) as [e|] eqn:En.
  { split; [discriminate | intros [? _]; discriminate]. }
  assert (Ha : allocates size w = true) by (unfold allocates; rewrite En; reflexivity).
  destruct (allocates_bookmark_points size w Ha) as [pts ->]. cbv zeta.
  apply allocates_spec in Ha as [Ha _].
  destruct (writable filename w); [|split; [discriminate | intros (_ & _ & ? & _); discriminate]].
  destruct (Z.eqb_spec size 0) as [->|Hz];
    [split; [discriminate | intros (_ & ? & _); lia]|].
  destruct (codecs.encodable _ _);
    [|split; [discriminate | intros (_ & _ & _ & ? & _); discriminate]].
  split; [intros [= <-]; repeat split; trivial; lia | intros (_ & _ & _ & _ & ->); reflexivity].
Qed.

Lemma create_icon_ok size filename w :
  allocates size w = true -> 0 < size -> writable filename w = true ->
  codecs.encodable (stdout_encoding w) (created_line size filename) = true ->
  create_icon size filename w = (inr tt, after_create_icon size filename w).
Proof. intros. apply create_icon_returns. auto. Qed.

Lemma create_icon_fails size filename w :
  allocates size w = true -> writable filename w = false ->
  create_icon size filename w =
    (inl (open_error filename w), with_heap (heap w ++ [canvas size]) w).
Proof.
  intros Ha Hw. rewrite create_icon_spec.
  destruct (allocates_bookmark_points size w Ha) as [pts ->].
  unfold allocates in Ha. destruct (new_error (size, size) w); [discriminate|].
  cbv zeta. rewrite Hw. reflexivity.
Qed.

(** The image of a call is the canvas with the drawing calls of its size,
    when [Image.new] returned, and there is none when it raised, in which
    case the call has done nothing. *)
Lemma icon_of_spec size filename w :
  icon_of size filename w = if allocates size w then Some (canvas size) else None.
Proof.
  unfold icon_of, allocates. rewrite create_icon_spec.
  destruct (new_error (size, size) w); [apply lookup_end|]. cbv zeta.
  destruct (bookmark_points size); [apply lookup_last|].
  destruct (writable filename w); [|apply lookup_last].
  destruct (size =? 0); [apply lookup_last|].
  destruct (codecs.encodable _ _); apply lookup_last.
Qed.

Lemma icon_of_canvas size filename w :
  allocates size w = true -> icon_of size filename w = Some (canvas size).
Proof. intros H. rewrite icon_of_spec, H. reflexivity. Qed.

Lemma bind_inr {A B} (m : M A) (k : A -> M B) w b w' :
  bind m k w = (inr b, w') <-> exists a w1, m w = (inr a, w1) /\ k a w1 = (inr b, w').
Proof.
  unfold bind. destruct (m w) as [[e|a] w1].
  - split; [discriminate | intros (? & ? & [=] & _)].
  - split; [eauto | intros (? & ? & [= <- <-] & H); exact H].
Qed.

Lemma bind_inl {A B} (m : M A) (k : A -> M B) w e w' :
  bind m k w = (inl e, w') <->
  m w = (inl e, w') \/ exists a w1, m w = (inr a, w1) /\ k a w1 = (inl e, w').
Proof.
  unfold bind. destruct (m w) as [[e1|a] w1].
  - split.
    + intros [= <- <-]. left. reflexivity.
    + intros [[= <- <-]|(? & ? & [=] & _)]. reflexivity.
  - split; [eauto | intros [[=]|(? & ? & [= <- <-] & H)]; exact H].
Qed.

Lemma bind_ok {A B} (m : M A) (k : A -> M B) w a w1 :
  m w = (inr a, w1) -> bind m k w = k a w1.
Proof. intros H. unfold bind. rewrite H. reflexivity. Qed.

Lemma bind_err {A B} (m : M A) (k : A -> M B) w e w1 :
  m w = (inl e, w1) -> bind m k w = (inl e, w1).
Proof. intros H. unfold bind. rewrite H. reflexivity. Qed.

(** The characters of the script's own messages beyond ASCII are in UTF-8
    alone. *)
Lemma tick_needs_utf_8 enc s :
  codecs.encodable enc (String "010" "✅ All icons created successfully!" +:+ s) = true ->
  enc = codecs.utf_8.
Proof. destruct enc; [reflexivity| |]; intros H; discriminate H. Qed.


(** The six prints that end [main]. *)
Lemma prints_summary icons_dir w :
  (print (String "010" "✅ All icons created successfully!") ;;
   print2 "📁 Icons saved to:" icons_dir ;;
   print (String "010" "Next steps:") ;;
   print "1. Review the generated icons" ;;
   print "2. Consider creating custom icons with a design tool if needed" ;;
   print "3. Update your extension manifest if necessary") w
  = match stdout_encoding w with
    | codecs.utf_8 => (inr tt, with_stdout (stdout w ++ summary_lines icons_dir) w)
    | enc => (inl (UnicodeEncodeError enc (String "010" "✅ All icons created successfully!")), w)
    end.
Proof.
  unfold bind, print, print2, summary_lines, with_stdout.
  destruct (stdout_encoding w) eqn:E; cbn [stdout pillow_installed script_file dirs files heap
    stdout_encoding memory codecs.encodable negb]; rewrite ?E; try reflexivity.
  rewrite <- !app_assoc. reflexivity.
Qed.

(** ** What the statements leave alone *)











Lemma keeps_makedirs name : keeps_env (os_makedirs name).
Proof.
  intros w. unfold os_makedirs. destruct (bool_decide _); [repeat split|].
  destruct (bool_decide _); [repeat split|]. destruct (below_file _ _); repeat split.
Qed.




(** ** The driver *)

Lemma makedirs_present name w : name ∈ dirs w -> os_makedirs name w = (inr tt, w).
Proof. intros H. unfold os_makedirs. rewrite bool_decide_eq_true_2 by exact H. reflexivity. Qed.

Lemma makedirs_returns name w w1 : os_makedirs name w = (inr tt, w1) ->
  name ∈ dirs w1 /\ dirs w ⊆ dirs w1 /\ files w1 = files w /\ heap w1 = heap w /\
  stdout w1 = stdout w /\ same_env w w1.
Proof.
  intros H. pose proof (keeps_makedirs name w) as He. rewrite H in He.
  revert H. unfold os_makedirs. destruct (bool_decide (name ∈ dirs w)) eqn:Hd.
  - intros [= <-]. apply bool_decide_eq_true_1 in Hd. repeat split; trivial.
  - destruct (bool_decide (name ∈ dom (files w))); [discriminate|].
    destruct (below_file _ _); [discriminate|]. intros [= <-].
    cbn [with_fs dirs files heap stdout script_file pillow_installed].
    split; [set_solver|]. split; [set_solver|]. repeat split; apply He.
Qed.


Lemma makedirs_raises name w e w' :
  os_makedirs name w = (inl e, w') -> is_ImportError e = false /\ w' = w.
Proof.
  unfold os_makedirs. destruct (bool_decide (name ∈ dirs w)); [discriminate|].
  destruct (bool_decide (name ∈ dom (files w))); [intros [= <- <-]; split; reflexivity|].
  destruct (below_file _ _); [intros [= <- <-]; split; reflexivity|discriminate].
Qed.




Lemma join2_inj path b1 b2 :
  posixpath.startswith_sep b1 = false -> posixpath.startswith_sep b2 = false ->
  posixpath.join2 path b1 = posixpath.join2 path b2 -> b1 = b2.
Proof.
  intros H1 H2. unfold posixpath.join2. rewrite H1, H2.
  destruct (negb (posixpath.nonempty path) || posixpath.endswith_sep path); intros E.
  - exact (String.app_inj path _ _ E).
  - apply (String.app_inj path) in E. injection E as E. exact E.
Qed.

(** The four targets are four different files. *)
Lemma icon_paths_distinct icons_dir s1 s2 :
  In s1 [16; 32; 48; 128] -> In s2 [16; 32; 48; 128] ->
  icon_path icons_dir s1 = icon_path icons_dir s2 -> s1 = s2.
Proof.
  intros H1 H2 E. unfold icon_path, posixpath.join in E. cbn [fold_left] in E.
  apply join2_inj in E; [|reflexivity..].
  destruct H1 as [<-|[<-|[<-|[<-|[]]]]]; destruct H2 as [<-|[<-|[<-|[<-|[]]]]];
    try reflexivity; vm_compute in E; discriminate.
Qed.

Ltac icon_lookups D :=
  rewrite ?lookup_insert; repeat case_decide; try reflexivity; try congruence;
  match goal with
  | E : icon_path D ?a = icon_path D ?b |- _ =>
      apply icon_paths_distinct in E; [discriminate | simpl; tauto ..]
  end.

Lemma main_unfold w :
  main w =
  (os_makedirs (icons_dir_of w) ;;
   (create_icon 16 (icon_path (icons_dir_of w) 16) ;;
    create_icon 32 (icon_path (icons_dir_of w) 32) ;;
    create_icon 48 (icon_path (icons_dir_of w) 48) ;;
    create_icon 128 (icon_path (icons_dir_of w) 128) ;;
    ret tt) ;;
   print (String "010" "✅ All icons created successfully!") ;;
   print2 "📁 Icons saved to:" (icons_dir_of w) ;;
   print (String "010" "Next steps:") ;;
   print "1. Review the generated icons" ;;
   print "2. Consider creating custom icons with a design tool if needed" ;;
   print "3. Update your extension manifest if necessary") w.
Proof. reflexivity. Qed.

(** The memory the sizes of the batch take. *)
Lemma allocates_batch s w : In s [16; 32; 48; 128] -> 65536 <= memory w ->
  allocates s w = true /\ 0 < s.
Proof.
  intros Hs Hm. split; [apply allocates_spec|]; destruct Hs as [<-|[<-|[<-|[<-|[]]]]]; lia.
Qed.

(** The loop of [main] when every call of it returns. *)
Lemma loop_returns icons_dir w1 :
  65536 <= memory w1 ->
  (forall s, In s [16; 32; 48; 128] -> writable (icon_path icons_dir s) w1 = true) ->
  (forall s, In s [16; 32; 48; 128] ->
     codecs.encodable (stdout_encoding w1) (created_line s (icon_path icons_dir s)) = true) ->
  (create_icon 16 (icon_path icons_dir 16) ;;
   create_icon 32 (icon_path icons_dir 32) ;;
   create_icon 48 (icon_path icons_dir 48) ;;
   create_icon 128 (icon_path icons_dir 128) ;;
   ret tt) w1 = (inr tt, after_icons icons_dir w1).
Proof.
  intros Hm Hw He. unfold after_icons.
  rewrite (bind_ok _ _ w1 tt (after_create_icon 16 (icon_path icons_dir 16) w1)).
  2:{ apply create_icon_ok; [apply allocates_batch | | apply Hw | apply He]; simpl; tauto || lia. }
  set (w2 := after_create_icon 16 _ w1).
  rewrite (bind_ok _ _ w2 tt (after_create_icon 32 (icon_path icons_dir 32) w2)).
  2:{ apply create_icon_ok; [apply (allocates_batch 32 w1) | | apply (Hw 32) | apply (He 32)];
        simpl; tauto || lia. }
  set (w3 := after_create_icon 32 _ w2).
  rewrite (bind_ok _ _ w3 tt (after_create_icon 48 (icon_path icons_dir 48) w3)).
  2:{ apply create_icon_ok; [apply (allocates_batch 48 w1) | | apply (Hw 48) | apply (He 48)];
        simpl; tauto || lia. }
  set (w4 := after_create_icon 48 _ w3).
  rewrite (bind_ok _ _ w4 tt (after_create_icon 128 (icon_path icons_dir 128) w4)).
  2:{ apply create_icon_ok; [apply (allocates_batch 128 w1) | | apply (Hw 128) | apply (He 128)];
        simpl; tauto || lia. }
  reflexivity.
Qed.

(** A run of [main] whose loop returns: the summary follows on a UTF-8
    standard output, and its first line raises on another one. *)
Lemma main_run w w1 :
  os_makedirs (icons_dir_of w) w = (inr tt, w1) ->
  65536 <= memory w ->
  (forall s, In s [16; 32; 48; 128] -> writable (icon_path (icons_dir_of w) s) w1 = true) ->
  (forall s, In s [16; 32; 48; 128] ->
     codecs.encodable (stdout_encoding w)
       (created_line s (icon_path (icons_dir_of w) s)) = true) ->
  main w =
    match stdout_encoding w with
    | codecs.utf_8 => (inr tt, after_main (icons_dir_of w) w1)
    | enc => (inl (UnicodeEncodeError enc (String "010" "✅ All icons created successfully!")),
              after_icons (icons_dir_of w) w1)
    end.
Proof.
  intros Hmk Hm Hw He.
  destruct (makedirs_returns _ _ _ Hmk) as (_ & _ & _ & _ & _ & _ & _ & Em & Ee).
  rewrite main_unfold, (bind_ok _ _ _ _ _ Hmk).
  rewrite (bind_ok _ _ w1 tt (after_icons (icons_dir_of w) w1)).
  2:{ apply loop_returns; [lia | exact Hw | rewrite Ee; exact He]. }
  rewrite prints_summary.
  change (stdout_encoding (after_icons (icons_dir_of w) w1)) with (stdout_encoding w1).
  rewrite Ee. reflexivity.
Qed.

(** The runs of [main] that return. *)
Lemma main_success w w' :
  main w = (inr tt, w') <->
  exists w1, os_makedirs (icons_dir_of w) w = (inr tt, w1) /\
    65536 <= memory w /\ stdout_encoding w = codecs.utf_8 /\
    (forall s, In s [16; 32; 48; 128] -> writable (icon_path (icons_dir_of w) s) w1 = true) /\
    w' = after_main (icons_dir_of w) w1.
Proof.
  set (D := icons_dir_of w). split.
  - rewrite main_unfold. fold D. intros H.
    apply bind_inr in H as ([] & w1 & Hmk & H). exists w1. split; [exact Hmk|].
    destruct (makedirs_returns _ _ _ Hmk) as (_ & _ & _ & _ & _ & _ & _ & Em & Ee).
    apply bind_inr in H as ([] & w5 & Hloop & Hprints).
    apply bind_inr in Hloop as ([] & w2 & H16 & Hloop).
    apply bind_inr in Hloop as ([] & w3 & H32 & Hloop).
    apply bind_inr in Hloop as ([] & w4 & H48 & Hloop).
    apply bind_inr in Hloop as ([] & w5' & H128 & Hloop).
    injection Hloop as <-.
    apply create_icon_returns in H16 as (_ & _ & W16 & _ & ->).
    apply create_icon_returns in H32 as (_ & _ & W32 & _ & ->).
    apply create_icon_returns in H48 as (_ & _ & W48 & _ & ->).
    apply create_icon_returns in H128 as (A128 & _ & W128 & _ & ->).
    apply allocates_spec in A128 as [_ A128]. cbn [memory after_create_icon] in A128.
    rewrite prints_summary in Hprints.
    cbn [stdout_encoding after_create_icon] in Hprints.
    split; [lia|].
    destruct (stdout_encoding w1) eqn:E1; try discriminate.
    injection Hprints as <-. split; [congruence|]. split; [|reflexivity].
    intros s [<-|[<-|[<-|[<-|[]]]]]; assumption.
  - intros (w1 & Hmk & Hm & Hu & Hw & ->).
    rewrite (main_run w w1 Hmk Hm Hw), Hu; [reflexivity|].
    intros s _. rewrite Hu. reflexivity.
Qed.

Lemma create_icon_raises size filename w e w' :
  In size [16; 32; 48; 128] ->
  create_icon size filename w = (inl e, w') -> is_ImportError e = false.
Proof.
  intros Hs. rewrite create_icon_spec.
  assert (Hp : exists pts, bookmark_points size = inr pts).
  { destruct (bookmark_points_small size) as (? & _ & _ & _ & _ & _ & _ & E);
      [destruct Hs as [<-|[<-|[<-|[<-|[]]]]]; lia | eauto]. }
  destruct Hp as [pts ->].
  unfold new_error, c_int_error. cbv zeta.
  repeat match goal with
         | |- context [if ?b then _ else _] => destruct b
         end;
    try (intros [= <- _]; reflexivity); try discriminate.
  intros [= <- _]. unfold open_error.
  repeat match goal with
         | |- context [if ?b then _ else _] => destruct b
         end; reflexivity.
Qed.

(** [main] imports nothing: no exception it raises is an [ImportError], so
    the handler of line 102 never runs. *)
Lemma main_raises_no_ImportError w e w' :
  main w = (inl e, w') -> is_ImportError e = false.
Proof.
  rewrite main_unfold. intros H.
  apply bind_inl in H as [H|([] & w1 & _ & H)]; [exact (proj1 (makedirs_raises _ _ _ _ H))|].
  apply bind_inl in H as [H|([] & w5 & _ & H)].
  - apply bind_inl in H as [H|([] & w2 & _ & H)];
      [apply (create_icon_raises 16 _ _ _ _ ltac:(simpl; tauto) H)|].
    apply bind_inl in H as [H|([] & w3 & _ & H)];
      [apply (create_icon_raises 32 _ _ _ _ ltac:(simpl; tauto) H)|].
    apply bind_inl in H as [H|([] & w4 & _ & H)];
      [apply (create_icon_raises 48 _ _ _ _ ltac:(simpl; tauto) H)|].
    apply bind_inl in H as [H|([] & w6 & _ & H)];
      [apply (create_icon_raises 128 _ _ _ _ ltac:(simpl; tauto) H)|].
    discriminate.
  - rewrite prints_summary in H. destruct (stdout_encoding w5); [discriminate|..];
      injection H as <- _; reflexivity.
Qed.


(** ** What [create_icon] draws *)

(** The drawing calls on an image that [Image.new] returned: the plate, the
    glyph and the badge block. *)
Lemma drawn_calls_allocated size w : allocates size w = true ->
  exists pts, bookmark_points size = inr pts /\
    drawn_calls size =
      rounded_rectangle [size / 8; size / 8; size - size / 8; size - size / 8] (size / 6) bg_blue
      :: polygon pts white :: badge_calls size.
Proof.
  intros H. destruct (allocates_bookmark_points size w H) as [pts E].
  exists pts. split; [exact E|]. unfold drawn_calls. rewrite E. reflexivity.
Qed.

Lemma badge_calls_small size : size < 32 -> badge_calls size = [].
Proof. intros H. unfold badge_calls. destruct (Z.leb_spec 32 size); [lia|reflexivity]. Qed.

Lemma badge_calls_large size : 32 <= size ->
  badge_calls size =
    [ ellipse [size - size / 8 - 2 - 2; 2 - 2; size - size / 8 - 2 + size / 8 + 2; 2 + size / 8 + 2]
              badge_green;
      rectangle [size - size / 8 - 2 + size / 8 / 2 - Z.max 1 (size / 8 / 4) / 2; 2;
                 size - size / 8 - 2 + size / 8 / 2 + Z.max 1 (size / 8 / 4) / 2; 2 + size / 8] white;
      rectangle [size - size / 8 - 2; 2 + size / 8 / 2 - Z.max 1 (size / 8 / 4) / 2;
                 size - size / 8 - 2 + size / 8; 2 + size / 8 / 2 + Z.max 1 (size / 8 / 4) / 2] white ].
Proof. intros H. unfold badge_calls. destruct (Z.leb_spec 32 size); [reflexivity|lia]. Qed.

(** No drawing call before the badge block uses the badge's colour. *)
Lemma no_green_without_badge size d :
  In d (drawn_calls size) -> fill_of d = badge_green -> In d (badge_calls size).
Proof.
  unfold drawn_calls. intros [<-|H] Hf; [discriminate|].
  destruct (bookmark_points size) as [e|pts]; [destruct H|].
  destruct H as [<-|H]; [discriminate|exact H].
Qed.

(** C6.  For every size for which [Image.new] returns the image (the sizes
    from 0 to 536870910 whose raster the memory can take), the first
    drawing call on the new image is the background plate: a filled rounded
    rectangle from [margin, margin] to [size - margin, size - margin] with
    [margin = size // 8], corner radius [size // 6] and the blue
    (37, 99, 235). *)
Theorem background_plate_drawn_first size filename w : allocates size w = true ->
  exists im rest, icon_of size filename w = Some im /\
    im_drawn im =
      rounded_rectangle [size / 8; size / 8; size - size / 8; size - size / 8]
                        (size / 6) (37, 99, 235) :: rest.
Proof.
  intros Ha. exists (canvas size). eexists. split; [apply icon_of_canvas; exact Ha|]. reflexivity.
Qed.

Lemma background_plate_drawn_first_witness :
  allocates 16 project_world = true /\
  exists im rest,
    icon_of 16 "/home/user/bookmarkable/extension/icons/icon16.png" project_world = Some im /\
    im_drawn im = rounded_rectangle [2; 2; 14; 14] 2 (37, 99, 235) :: rest.
Proof. split; [reflexivity | apply (background_plate_drawn_first 16); reflexivity]. Defined.



(** C4.  For every size for which [Image.new] returns the image, the
    generator issues a drawing call in badge green (52, 211, 153) if and
    only if [size >= 32]: from 32 on the badge circle is an ellipse filled
    with it, below 32 no drawing call uses it. *)
Theorem badge_green_iff_size_ge_32 size filename w : allocates size w = true ->
  exists im, icon_of size filename w = Some im /\
    (uses_color (52, 211, 153) im <-> 32 <= size) /\
    (32 <= size -> exists box, In (ellipse box (52, 211, 153)) (im_drawn im)) /\
    (size < 32 -> forall d, In d (im_drawn im) -> fill_of d <> (52, 211, 153)).
Proof.
  intros Ha. exists (canvas size). split; [apply icon_of_canvas; exact Ha|].
  assert (Hlarge : 32 <= size -> exists box, In (ellipse box badge_green) (drawn_calls size)).
  { intros H. destruct (drawn_calls_allocated size w Ha) as (pts & _ & ->).
    rewrite (badge_calls_large size H). eexists. right. right. left. reflexivity. }
  assert (Hsmall : size < 32 -> forall d, In d (drawn_calls size) -> fill_of d <> badge_green).
  { intros H d Hd Hf. pose proof (no_green_without_badge size d Hd Hf) as Hb.
    rewrite (badge_calls_small size H) in Hb. destruct Hb. }
  split; [|split; assumption].
  split.
  - intros (d & Hd & Hf). destruct (Z.le_gt_cases 32 size) as [H|H]; [exact H|].
    exfalso. exact (Hsmall ltac:(lia) d Hd Hf).
  - intros H. destruct (Hlarge H) as [box Hb]. exists (ellipse box badge_green). split; [exact Hb|reflexivity].
Qed.

Lemma badge_green_iff_size_ge_32_witness :
  allocates 32 project_world = true /\
  exists im, icon_of 32 "/home/user/bookmarkable/extension/icons/icon32.png" project_world = Some im /\
    (uses_color (52, 211, 153) im <-> 32 <= 32) /\
    (32 <= 32 -> exists box, In (ellipse box (52, 211, 153)) (im_drawn im)) /\
    (32 < 32 -> forall d, In d (im_drawn im) -> fill_of d <> (52, 211, 153)).
Proof.
  split; [reflexivity | apply (badge_green_iff_size_ge_32 32); reflexivity].
Defined.

(** C9.  For every size from 32 on for which [Image.new] returns the image,
    the bounding box of the badge circle is
    [size - size//8 - 4, 0, size, size//8 + 4]: its top is 0 and its right
    is [size].  No other ellipse is drawn. *)
Theorem badge_box_flush_with_top_right size filename w :
  32 <= size -> allocates size w = true ->
  exists im, icon_of size filename w = Some im /\
    In (ellipse [size - size / 8 - 4; 0; size; size / 8 + 4] (52, 211, 153)) (im_drawn im) /\
    (forall box c, In (ellipse box c) (im_drawn im) ->
       box = [size - size / 8 - 4; 0; size; size / 8 + 4]).
Proof.
  intros Hs Ha. exists (canvas size). split; [apply icon_of_canvas; exact Ha|].
  destruct (drawn_calls_allocated size w Ha) as (pts & _ & E).
  cbn [canvas im_drawn]. rewrite E, (badge_calls_large size Hs).
  assert (Hbox : [size - size / 8 - 2 - 2; 2 - 2; size - size / 8 - 2 + size / 8 + 2; 2 + size / 8 + 2]
                 = [size - size / 8 - 4; 0; size; size / 8 + 4]).
  { repeat (f_equal; try lia). }
  rewrite Hbox. split.
  - right. right. left. reflexivity.
  - intros box c [H|[H|[H|[H|[H|[]]]]]]; try discriminate. injection H as <- _. reflexivity.
Qed.

Lemma badge_box_flush_with_top_right_witness :
  32 <= 128 /\ allocates 128 project_world = true /\
  exists im, icon_of 128 "/home/user/bookmarkable/extension/icons/icon128.png" project_world = Some im /\
    In (ellipse [128 - 128 / 8 - 4; 0; 128; 128 / 8 + 4] (52, 211, 153)) (im_drawn im) /\
    (forall box c, In (ellipse box c) (im_drawn im) ->
       box = [128 - 128 / 8 - 4; 0; 128; 128 / 8 + 4]).
Proof.
  split; [lia|]. split; [reflexivity|].
  apply (badge_box_flush_with_top_right 128); [lia | reflexivity].
Defined.

(** C2, as stated, fails at size 32: the circle's bounding box is
    [24, 0, 32, 8] and the vertical bar is [28, 2, 28, 6], from row 2 to
    row 6 and not from row 0 to row 8. *)
Lemma plus_bars_do_not_span_badge_box_32 :
  exists im, icon_of 32 "icon32.png" project_world = Some im /\ ~ plus_spans_badge_box im.
Proof.
  exists (canvas 32). split; [apply icon_of_canvas; reflexivity|].
  intros (before & box & vbar & hbar & E & [Hv _] & _).
  assert (Hd : im_drawn (canvas 32) =
    [rounded_rectangle [4; 4; 28; 28] 5 bg_blue;
     polygon [8; 6; 24; 6; 24; 19; 16; 23; 8; 19] white]
    ++ [ellipse [24; 0; 32; 8] badge_green; rectangle [28; 2; 28; 6] white;
        rectangle [26; 4; 30; 4] white]) by (vm_compute; reflexivity).
  rewrite Hd in E.
  apply (f_equal (@rev draw_call)) in E. rewrite !rev_app_distr in E.
  cbn [rev app] in E. injection E as _ Ev Eb _. subst vbar box.
  cbn [nth] in Hv. discriminate.
Qed.

(** C2, amended.  For every size from 32 on for which [Image.new] returns
    the image, the last three drawing calls are the badge circle and two
    white rectangles, of thickness parameter [max(1, (size // 8) // 4)]
    around the centre lines [plus_x + plus_size // 2] and
    [plus_y + plus_size // 2]; the bars span the inner square
    [plus_x, plus_y, plus_x + plus_size, plus_y + plus_size], which is the
    circle's bounding box inset by 2 on every side, and not that bounding
    box. *)
Theorem plus_sign_spans_inner_square size filename w :
  32 <= size -> allocates size w = true ->
  let plus_size := size / 8 in
  let plus_x := size - plus_size - 2 in
  let plus_y := 2 in
  let plus_thickness := Z.max 1 (size / 8 / 4) in
  let circle := [plus_x - 2; plus_y - 2; plus_x + plus_size + 2; plus_y + plus_size + 2] in
  let inner := [plus_x; plus_y; plus_x + plus_size; plus_y + plus_size] in
  let vbar := [plus_x + plus_size / 2 - plus_thickness / 2; plus_y;
               plus_x + plus_size / 2 + plus_thickness / 2; plus_y + plus_size] in
  let hbar := [plus_x; plus_y + plus_size / 2 - plus_thickness / 2;
               plus_x + plus_size; plus_y + plus_size / 2 + plus_thickness / 2] in
  exists im before, icon_of size filename w = Some im /\
    im_drawn im = before ++ [ellipse circle (52, 211, 153);
                             rectangle vbar (255, 255, 255);
                             rectangle hbar (255, 255, 255)] /\
    spans_vertically vbar inner /\ spans_horizontally hbar inner /\
    ~ spans_vertically vbar circle /\ ~ spans_horizontally hbar circle.
Proof.
  intros Hs Ha. cbv zeta. exists (canvas size).
  destruct (drawn_calls_allocated size w Ha) as (pts & _ & E).
  eexists [_; _]. split; [apply icon_of_canvas; exact Ha|].
  cbn [canvas im_drawn]. rewrite E, (badge_calls_large size Hs).
  split; [reflexivity|].
  unfold spans_vertically, spans_horizontally. cbn [nth].
  repeat split; try reflexivity; intros [H _]; lia.
Qed.

Lemma plus_sign_spans_inner_square_witness :
  32 <= 32 /\ allocates 32 project_world = true /\
  exists im before, icon_of 32 "icon32.png" project_world = Some im /\
    im_drawn im = before ++ [ellipse [24; 0; 32; 8] (52, 211, 153);
                             rectangle [28; 2; 28; 6] (255, 255, 255);
                             rectangle [26; 4; 30; 4] (255, 255, 255)] /\
    spans_vertically [28; 2; 28; 6] [26; 2; 30; 6] /\
    spans_horizontally [26; 4; 30; 4] [26; 2; 30; 6] /\
    ~ spans_vertically [28; 2; 28; 6] [24; 0; 32; 8] /\
    ~ spans_horizontally [26; 4; 30; 4] [24; 0; 32; 8].
Proof.
  split; [lia|]. split; [reflexivity|].
  apply (plus_sign_spans_inner_square 32 "icon32.png" project_world); [lia | reflexivity].
Defined.

(** C10.  For every size for which [Image.new] returns the image, a
    polygon is drawn, in white, and every polygon the generator draws has
    ten coordinates (five vertices), each between 0 and [size]. *)
Theorem bookmark_polygon_inside_canvas size filename w : allocates size w = true ->
  exists im, icon_of size filename w = Some im /\
    (forall xy c, In (polygon xy c) (im_drawn im) ->
       length xy = 10%nat /\ Forall (fun v => 0 <= v <= size) xy) /\
    (exists xy, In (polygon xy (255, 255, 255)) (im_drawn im)).
Proof.
  intros Ha. exists (canvas size). split; [apply icon_of_canvas; exact Ha|].
  pose proof (proj1 (allocates_spec size w) Ha) as [Hs _].
  destruct (bookmark_points_small size ltac:(lia)) as (r & _ & _ & _ & Br & _ & Pr & E).
  cbn [canvas im_drawn]. unfold drawn_calls. rewrite E. split.
  - intros xy c [H|[H|Hin]]; [discriminate| |].
    + injection H as <- _. split; [reflexivity|].
      repeat (constructor; [div_lia|]). constructor.
    + exfalso. unfold badge_calls in Hin.
      destruct (32 <=? size); [|destruct Hin].
      destruct Hin as [H|[H|[H|[]]]]; discriminate.
  - eexists. right. left. reflexivity.
Qed.

Lemma bookmark_polygon_inside_canvas_witness :
  allocates 48 project_world = true /\
  exists im, icon_of 48 "/home/user/bookmarkable/extension/icons/icon48.png" project_world = Some im /\
    (forall xy c, In (polygon xy c) (im_drawn im) ->
       length xy = 10%nat /\ Forall (fun v => 0 <= v <= 48) xy) /\
    (exists xy, In (polygon xy (255, 255, 255)) (im_drawn im)).
Proof. split; [reflexivity | apply (bookmark_polygon_inside_canvas 48); reflexivity]. Defined.

(** C5, as stated, fails at size 150: the height is 90 and 70% of it is 63,
    but [int(90 * 0.7)] is 62, so the sides are at [y + 62]. *)
Lemma bookmark_side_below_70_percent_at_150 :
  exists im, icon_of 150 "icon150.png" project_world = Some im /\
    In (polygon [37; 30; 112; 30; 112; 92; 74; 111; 37; 92] (255, 255, 255)) (im_drawn im) /\
    claimed_bookmark_points 150 = [37; 30; 112; 30; 112; 93; 74; 111; 37; 93] /\
    ~ In (polygon (claimed_bookmark_points 150) (255, 255, 255)) (im_drawn im).
Proof.
  exists (canvas 150). split; [apply icon_of_canvas; reflexivity|].
  assert (Hd : im_drawn (canvas 150) =
    [rounded_rectangle [18; 18; 132; 132] 25 bg_blue;
     polygon [37; 30; 112; 30; 112; 92; 74; 111; 37; 92] white;
     ellipse [128; 0; 150; 22] badge_green; rectangle [137; 2; 141; 20] white;
     rectangle [130; 9; 148; 13] white]) by (vm_compute; reflexivity).
  rewrite Hd. split; [right; left; reflexivity|].
  split; [vm_compute; reflexivity|].
  intros [H|[H|[H|[H|[H|[]]]]]]; vm_compute in H; discriminate.
Qed.

(** C5, amended.  For every size for which [Image.new] returns the image,
    the second drawing call is the white 5-point polygon with
    [width = size // 2], [height = floor(0.6 * size)], top-left corner
    [((size - width) // 2, (size - height) // 2)], bottom point at
    [floor(0.9 * height)] below the top, and both sides at
    [int(height * 0.7)] below the top, where the binary64 product gives
    [floor(0.7 * height)] or one less, and exactly [floor(0.7 * height)]
    when [height] is not a multiple of 10. *)
Theorem bookmark_polygon_geometry size filename w : allocates size w = true ->
  let width := size / 2 in
  let height := 6 * size / 10 in
  let x := (size - width) / 2 in
  let y := (size - height) / 2 in
  exists im side first rest,
    icon_of size filename w = Some im /\
    im_drawn im =
      first :: polygon [ x; y;  x + width; y;  x + width; y + side;
                         x + width / 2; y + 9 * height / 10;  x; y + side ]
                       (255, 255, 255) :: rest /\
    PyFloat.int_mul size PyFloat.lit_0_6 = inr height /\
    PyFloat.int_mul height PyFloat.lit_0_7 = inr side /\
    PyFloat.int_mul height PyFloat.lit_0_9 = inr (9 * height / 10) /\
    7 * height / 10 - 1 <= side <= 7 * height / 10 /\
    (height mod 10 <> 0 -> side = 7 * height / 10).
Proof.
  intros Ha. cbv zeta.
  pose proof (proj1 (allocates_spec size w) Ha) as [Hs _].
  destruct (bookmark_points_small size ltac:(lia)) as (side & E6 & E7 & E9 & B7 & X7 & _ & E).
  exists (canvas size), side. eexists. eexists.
  split; [apply icon_of_canvas; exact Ha|].
  split; [|repeat split; try assumption; lia].
  cbn [canvas im_drawn]. unfold drawn_calls. rewrite E. reflexivity.
Qed.

Lemma bookmark_polygon_geometry_witness :
  allocates 128 project_world = true /\
  exists im side first rest,
    icon_of 128 "/home/user/bookmarkable/extension/icons/icon128.png" project_world = Some im /\
    im_drawn im =
      first :: polygon [ (128 - 128 / 2) / 2; (128 - 6 * 128 / 10) / 2;
                         (128 - 128 / 2) / 2 + 128 / 2; (128 - 6 * 128 / 10) / 2;
                         (128 - 128 / 2) / 2 + 128 / 2; (128 - 6 * 128 / 10) / 2 + side;
                         (128 - 128 / 2) / 2 + 128 / 2 / 2;
                         (128 - 6 * 128 / 10) / 2 + 9 * (6 * 128 / 10) / 10;
                         (128 - 128 / 2) / 2; (128 - 6 * 128 / 10) / 2 + side ]
                       (255, 255, 255) :: rest /\
    PyFloat.int_mul 128 PyFloat.lit_0_6 = inr (6 * 128 / 10) /\
    PyFloat.int_mul (6 * 128 / 10) PyFloat.lit_0_7 = inr side /\
    PyFloat.int_mul (6 * 128 / 10) PyFloat.lit_0_9 = inr (9 * (6 * 128 / 10) / 10) /\
    7 * (6 * 128 / 10) / 10 - 1 <= side <= 7 * (6 * 128 / 10) / 10 /\
    ((6 * 128 / 10) mod 10 <> 0 -> side = 7 * (6 * 128 / 10) / 10).
Proof.
  split; [reflexivity|].
  apply (bookmark_polygon_geometry 128 "/home/user/bookmarkable/extension/icons/icon128.png"
           project_world). reflexivity.
Defined.

(** ** The batch *)

(** C8.  The image a call of the generator writes depends on the size
    alone: two calls with the same size, whatever their file names and the
    worlds they start in, write the same image.  And a second run of the
    batch after a first one returns and leaves every file as the first run
    wrote it; each icon file holds the image of its size. *)
Theorem icon_content_depends_on_size_only :
  (forall size filename1 filename2 w1 w2 w1' w2',
     create_icon size filename1 w1 = (inr tt, w1') ->
     create_icon size filename2 w2 = (inr tt, w2') ->
     exists im, files w1' !! filename1 = Some (png im) /\
                files w2' !! filename2 = Some (png im)) /\
  (forall w w', main w = (inr tt, w') ->
     exists w'', main w' = (inr tt, w'') /\ files w'' = files w' /\
       forall size, In size [16; 32; 48; 128] ->
         exists im, files w' !! icon_path (icons_dir_of w) size = Some (png im) /\
                    files w'' !! icon_path (icons_dir_of w) size = Some (png im) /\
                    icon_of size (icon_path (icons_dir_of w) size) w = Some im).
Proof.
  split.
  - intros size f1 f2 w1 w2 w1' w2' H1 H2. exists (canvas size).
    apply create_icon_returns in H1 as (_ & _ & _ & _ & ->).
    apply create_icon_returns in H2 as (_ & _ & _ & _ & ->).
    split; apply lookup_insert_eq.
  - intros w w' H. apply main_success in H as (w1 & Hmk & Hm & Hu & Hw & ->).
    set (D := icons_dir_of w) in *.
    destruct (makedirs_returns _ _ _ Hmk) as (Hin & _ & Hfiles & _ & _ & _ & Hfile & Em & Ee).
    assert (HD : icons_dir_of (after_main D w1) = D).
    { unfold icons_dir_of.
      cbn [after_main after_icons after_create_icon with_stdout script_file].
      rewrite Hfile. reflexivity. }
    assert (Hfs : files (after_main D (after_main D w1)) = files (after_main D w1)).
    { cbn [after_main after_icons after_create_icon with_stdout files].
      apply map_eq. intros k. rewrite !lookup_insert. repeat case_decide; reflexivity. }
    exists (after_main D (after_main D w1)). split; [|split].
    + apply main_success. rewrite HD. exists (after_main D w1).
      split; [apply makedirs_present; exact Hin|].
      cbn [after_main after_icons after_create_icon with_stdout memory stdout_encoding].
      split; [lia|]. split; [congruence|]. split; [exact Hw | reflexivity].
    + exact Hfs.
    + intros size Hin'. exists (canvas size).
      split; [|split; [rewrite Hfs|apply icon_of_canvas; apply (allocates_batch size w Hin' Hm)]];
        cbn [after_main after_icons after_create_icon with_stdout files];
        destruct Hin' as [<-|[<-|[<-|[<-|[]]]]]; icon_lookups D.
Qed.

Lemma icon_content_depends_on_size_only_witness :
  exists w' w'', main project_world = (inr tt, w') /\ main w' = (inr tt, w'') /\
                 files w'' = files w'.
Proof.
  assert (H : main project_world = (inr tt, snd (main project_world)))
    by (vm_compute; reflexivity).
  destruct (proj2 icon_content_depends_on_size_only _ _ H) as (w'' & H2 & Hf & _).
  exists (snd (main project_world)), w''. auto.
Defined.







(** C1.  What the code does when Pillow is missing: the [import] of line 7
    raises outside the [try] of line 100, so the exception escapes the
    module; nothing is printed and the interpreter exits with a traceback
    and status 1.  The claim has the handler of line 102 catch it. *)
Theorem missing_pillow_is_not_caught w : pillow_installed w = false ->
  run_script w = (Traceback (ModuleNotFoundError "PIL"), w) /\
  exit_status (fst (run_script w)) = 1 /\
  stdout (snd (run_script w)) = stdout w.
Proof.
  intros H. assert (E : run_script w = (Traceback (ModuleNotFoundError "PIL"), w)).
  { unfold run_script, script, bind, import_PIL. rewrite H. reflexivity. }
  rewrite E. repeat split.
Qed.

Lemma missing_pillow_is_not_caught_witness :
  pillow_installed world_without_pillow = false /\
  run_script world_without_pillow = (Traceback (ModuleNotFoundError "PIL"), world_without_pillow) /\
  exit_status (fst (run_script world_without_pillow)) = 1 /\
  stdout (snd (run_script world_without_pillow)) = [].
Proof.
  split; [reflexivity|]. apply (missing_pillow_is_not_caught world_without_pillow). reflexivity.
Defined.

(** ** Checks of the model on concrete inputs *)

(** The three literals are the correctly rounded quotients 6/10, 7/10, 9/10. *)
Example literals_nearest :
  let q a b := SFdiv 53 1024 (binary_normalize 53 1024 a 0 false)
                             (binary_normalize 53 1024 b 0 false) in
  PyFloat.lit_0_6 = q 6 10 /\ PyFloat.lit_0_7 = q 7 10 /\ PyFloat.lit_0_9 = q 9 10.
Proof. vm_compute. repeat split. Qed.

(** [int(90 * 0.7)] is 62: [90 * 0.7] is 62.99999999999999 in binary64. *)
Example int_90_times_0_7 : PyFloat.int_mul 90 PyFloat.lit_0_7 = inr 62.
Proof. vm_compute. reflexivity. Qed.

Example int_10_times_0_7 : PyFloat.int_mul 10 PyFloat.lit_0_7 = inr 7.
Proof. vm_compute. reflexivity. Qed.

Example dirname_examples :
  posixpath.dirname "/a/b/c" = "/a/b" /\ posixpath.dirname "/a" = "/" /\
  posixpath.dirname "a" = "" /\ posixpath.dirname "/a/b/" = "/a/b" /\
  posixpath.split "/a//b" = ("/a", "b") /\
  posixpath.join "/a" ["b"; "c"] = "/a/b/c" /\ posixpath.join "/a/" ["b"] = "/a/b" /\
  posixpath.join "/a" ["/b"] = "/b" /\ posixpath.join "/" ["extension"; "icons"] = "/extension/icons".
Proof. vm_compute. repeat split. Qed.

Example canonical_examples :
  posixpath.canonical "/a/b/c.png" = true /\ posixpath.canonical "/" = true /\
  posixpath.canonical "c.png" = false /\ posixpath.canonical "/a//c.png" = false /\
  posixpath.canonical "/a/b/" = false /\ posixpath.canonical "/a/./c.png" = false /\
  posixpath.canonical "/a/../c.png" = false /\ posixpath.canonical "//a" = false.
Proof. vm_compute. repeat split. Qed.

(** The messages of [UnicodeEncodeError] for the script's own lines. *)
Example encode_errors :
  str_exn (UnicodeEncodeError codecs.ascii "❌ Error creating icons: x") =
    "'ascii' codec can't encode character '\u274c' in position 0: ordinal not in range(128)" /\
  str_exn (UnicodeEncodeError codecs.latin_1 (String "010" "✅ All icons created successfully!")) =
    "'latin-1' codec can't encode character '\u2705' in position 1: ordinal not in range(256)" /\
  str_exn (UnicodeEncodeError codecs.ascii "📁 Icons saved to:") =
    "'ascii' codec can't encode character '\U0001f4c1' in position 0: ordinal not in range(128)" /\
  codecs.encodable codecs.latin_1 "Created /héé/icon16.png (16x16)" = true /\
  str_exn (UnicodeEncodeError codecs.ascii "Created /héé/icon16.png (16x16)") =
    "'ascii' codec can't encode characters in position 10-11: ordinal not in range(128)".
Proof. vm_compute. repeat split. Qed.

Example drawn_16 :
  drawn_calls 16 =
    [ rounded_rectangle [2; 2; 14; 14] 2 (37, 99, 235);
      polygon [4; 3; 12; 3; 12; 9; 8; 11; 4; 9] (255, 255, 255) ].
Proof. vm_compute. reflexivity. Qed.

Example drawn_128 :
  drawn_calls 128 =
    [ rounded_rectangle [16; 16; 112; 112] 21 (37, 99, 235);
      polygon [32; 26; 96; 26; 96; 79; 64; 94; 32; 79] (255, 255, 255);
      ellipse [108; 0; 128; 20] (52, 211, 153);
      rectangle [116; 2; 120; 18] (255, 255, 255);
      rectangle [110; 8; 126; 12] (255, 255, 255) ].
Proof. vm_compute. reflexivity. Qed.

(** A run of the script in a fresh checkout. *)
Example run_in_project :
  let '(x, w) := run_script project_world in
  x = Exit_normally /\
  "/home/user/bookmarkable/extension/icons" ∈ dirs w /\
  heap w = [canvas 16; canvas 32; canvas 48; canvas 128] /\
  stdout w =
    [ "Created /home/user/bookmarkable/extension/icons/icon16.png (16x16)";
      "Created /home/user/bookmarkable/extension/icons/icon32.png (32x32)";
      "Created /home/user/bookmarkable/extension/icons/icon48.png (48x48)";
      "Created /home/user/bookmarkable/extension/icons/icon128.png (128x128)" ]
    ++ summary_lines "/home/user/bookmarkable/extension/icons".
Proof. vm_compute. repeat split. Qed.

(** Sizes that [Image.new] refuses: nothing is allocated. *)
Example refused_sizes :
  create_icon (- 1) "/icon.png" project_world
    = (inl (ValueError "Width and height must be >= 0"), project_world) /\
  create_icon (2 ^ 31) "/icon.png" project_world
    = (inl (OverflowError "signed integer is greater than maximum"), project_world) /\
  create_icon (2 ^ 1024) "/icon.png" project_world
    = (inl (OverflowError "Python int too large to convert to C long"), project_world) /\
  create_icon (2 ^ 20) "/icon.png" project_world = (inl MemoryError, project_world).
Proof. vm_compute. repeat split. Qed.

(** An image without pixels: the encoder refuses it, and an existing target
    is left empty. *)
Example empty_image :
  fst (create_icon 0 "/home/user/bookmarkable/scripts/icon0.png" project_world)
    = inl (ValueError "tile cannot extend outside image") /\
  files (snd (create_icon 0 "/home/user/bookmarkable/scripts/icon0.png" project_world)) = ∅ /\
  files (snd (create_icon 0 "/home/user/bookmarkable/extension" world_with_file_in_the_way))
    = {[ "/home/user/bookmarkable/extension" := data EmptyString ]}.
Proof. vm_compute. repeat split. Qed.

(** * Further properties of the script *)

(** ** The script and its handlers *)





(** X3.  The body of [except ImportError] never runs: whatever that
    handler is, the [try] statement around [main] behaves the same, since
    [main] raises no [ImportError] (the only import is at the top of the
    file, outside the [try]). *)
Theorem import_error_handler_is_dead (h1 h2 : M unit) (on_exception : exn -> M unit) w :
  try_except main h1 on_exception w = try_except main h2 on_exception w.
Proof.
  unfold try_except. destruct (main w) as [[e|[]] w'] eqn:E; [|reflexivity].
  rewrite (main_raises_no_ImportError w e w' E). reflexivity.
Qed.

Lemma open_error_cases filename w :
  open_error filename w = IsADirectoryError filename \/
  open_error filename w = NotADirectoryError filename \/
  open_error filename w = FileNotFoundError filename.
Proof. unfold open_error. destruct (bool_decide _); auto. destruct (existsb _ _); auto. Qed.

(** X4.  When [Image.new] has returned and the target, a canonical path,
    cannot be opened for writing, [create_icon] raises the error of [open]
    at [img.save], after the whole icon was drawn: no file is written, no
    directory is made and no line is printed.  The error is
    [IsADirectoryError] when the target is a directory,
    [NotADirectoryError] when one of its ancestors is a regular file, and
    [FileNotFoundError] otherwise: [create_icon] does not create a missing
    parent directory, which is still missing afterwards. *)
Theorem create_icon_fails_on_unwritable_target size filename w :
  allocates size w = true -> posixpath.canonical filename = true ->
  writable filename w = false ->
  exists w', create_icon size filename w = (inl (open_error filename w), w') /\
    files w' = files w /\ dirs w' = dirs w /\ stdout w' = stdout w /\
    (filename ∈ dirs w -> open_error filename w = IsADirectoryError filename) /\
    (filename ∉ dirs w ->
     (exists a, In a (posixpath.ancestors filename) /\ a ∈ dom (files w)) ->
     open_error filename w = NotADirectoryError filename) /\
    (filename ∉ dirs w ->
     (forall a, In a (posixpath.ancestors filename) -> a ∉ dom (files w)) ->
     open_error filename w = FileNotFoundError filename /\
     posixpath.dirname filename ∉ dirs w').
Proof.
  intros Ha _ Hw. rewrite (create_icon_fails size filename w Ha Hw).
  eexists. split; [reflexivity|].
  cbn [with_heap files dirs stdout]. repeat split; trivial.
  - intros Hd. unfold open_error. rewrite bool_decide_eq_true_2 by assumption. reflexivity.
  - intros Hd (a & Hin & Hf). unfold open_error. rewrite bool_decide_eq_false_2 by assumption.
    replace (existsb _ _) with true; [reflexivity|]. symmetry. apply existsb_exists.
    exists a. split; [exact Hin|]. apply bool_decide_eq_true_2. exact Hf.
  - unfold open_error. rewrite bool_decide_eq_false_2 by assumption.
    replace (existsb _ _) with false; [reflexivity|]. symmetry.
    apply not_true_is_false. intros (a & Hin & Hf)%existsb_exists.
    apply bool_decide_eq_true_1 in Hf.
    match goal with Hno : forall a, In a _ -> a ∉ _ |- _ => exact (Hno a Hin Hf) end.
  - unfold writable in Hw. rewrite bool_decide_eq_false_2 in Hw by assumption.
    cbn [negb andb] in Hw. apply bool_decide_eq_false_1 in Hw. exact Hw.
Qed.

Lemma create_icon_fails_on_unwritable_target_witness :
  let target := "/home/user/bookmarkable/extension/icons/icon16.png" in
  allocates 16 project_world = true /\ posixpath.canonical target = true /\
  writable target project_world = false /\
  exists w', create_icon 16 target project_world = (inl (FileNotFoundError target), w') /\
    files w' = ∅ /\ stdout w' = [].
Proof.
  cbv zeta. split; [reflexivity|]. split; [reflexivity|]. split; [vm_compute; reflexivity|].
  destruct (create_icon_fails_on_unwritable_target 16
              "/home/user/bookmarkable/extension/icons/icon16.png" project_world)
    as (w' & E & Hf & _ & Ho & _); [reflexivity | reflexivity | vm_compute; reflexivity |].
  exists w'. repeat split; trivial.
Defined.

(** X5.  A call of [create_icon] that returns, for a target that is a
    canonical path, has written the image it drew to the target (replacing
    what was there), has left every other file and every directory as it
    was, has allocated that one image, and has printed the one line
    [Created <filename> (<size>x<size>)]; the size is positive and the line
    can be encoded on the standard output. *)
Theorem create_icon_touches_only_its_target size filename w w' :
  posixpath.canonical filename = true ->
  create_icon size filename w = (inr tt, w') ->
  (exists im, files w' !! filename = Some (png im) /\ icon_of size filename w = Some im /\
              heap w' = heap w ++ [im]) /\
  (forall other, other <> filename -> files w' !! other = files w !! other) /\
  dirs w' = dirs w /\
  stdout w' = stdout w ++ ["Created " +:+ filename +:+ " (" +:+ str_int size +:+ "x"
                           +:+ str_int size +:+ ")"] /\
  0 < size /\
  codecs.encodable (stdout_encoding w)
    ("Created " +:+ filename +:+ " (" +:+ str_int size +:+ "x" +:+ str_int size +:+ ")") = true.
Proof.
  intros _ H. apply create_icon_returns in H as (Ha & Hs & _ & He & ->).
  cbn [after_create_icon files dirs stdout heap]. repeat split; trivial.
  - exists (canvas size). repeat split; trivial; [apply lookup_insert_eq|].
    apply icon_of_canvas. exact Ha.
  - intros other Hne. apply lookup_insert_ne. congruence.
Qed.

Lemma create_icon_touches_only_its_target_witness :
  let target := "/home/user/bookmarkable/scripts/icon32.png" in
  posixpath.canonical target = true /\
  exists w', create_icon 32 target project_world = (inr tt, w') /\
    dirs w' = dirs project_world /\
    stdout w' = ["Created /home/user/bookmarkable/scripts/icon32.png (32x32)"].
Proof.
  cbv zeta. split; [reflexivity|].
  assert (H : create_icon 32 "/home/user/bookmarkable/scripts/icon32.png" project_world
              = (inr tt, snd (create_icon 32 "/home/user/bookmarkable/scripts/icon32.png"
                                project_world))) by (vm_compute; reflexivity).
  destruct (create_icon_touches_only_its_target 32
              "/home/user/bookmarkable/scripts/icon32.png" project_world _ eq_refl H)
    as (_ & _ & Hd & Ho & _).
  eexists. split; [exact H|]. split; [exact Hd|exact Ho].
Defined.

(** ** The batch, step by step *)

(** X6.  The loop of [main] stops at the first size whose target cannot be
    written.  When [os.makedirs] has returned, the memory takes a raster of
    128 x 128 pixels and the lines of the sizes before that one can be
    encoded on the standard output (they always can on a UTF-8 one),
    [main] raises the error of [open] for that target, the icons of the
    sizes before it are written and their lines printed, the targets of
    that size and of the later sizes are as they were, no summary line is
    printed, and one image more than was saved has been allocated. *)
Theorem batch_stops_at_first_failure w w1 done s rest :
  [16; 32; 48; 128] = done ++ s :: rest ->
  65536 <= memory w ->
  (forall t, In t done ->
     codecs.encodable (stdout_encoding w)
       ("Created " +:+ icon_path (icons_dir_of w) t +:+ " (" +:+ str_int t +:+ "x"
        +:+ str_int t +:+ ")") = true) ->
  os_makedirs (icons_dir_of w) w = (inr tt, w1) ->
  (forall t, In t done -> writable (icon_path (icons_dir_of w) t) w1 = true) ->
  writable (icon_path (icons_dir_of w) s) w1 = false ->
  exists e w', main w = (inl e, w') /\
    (e = IsADirectoryError (icon_path (icons_dir_of w) s) \/
     e = NotADirectoryError (icon_path (icons_dir_of w) s) \/
     e = FileNotFoundError (icon_path (icons_dir_of w) s)) /\
    (forall t, In t done ->
       files w' !! icon_path (icons_dir_of w) t
       = png <$> icon_of t (icon_path (icons_dir_of w) t) w) /\
    (forall t, In t (s :: rest) ->
       files w' !! icon_path (icons_dir_of w) t = files w !! icon_path (icons_dir_of w) t) /\
    stdout w' = stdout w ++
      map (fun t => "Created " +:+ icon_path (icons_dir_of w) t +:+ " (" +:+ str_int t +:+ "x"
                    +:+ str_int t +:+ ")") done /\
    length (heap w') = S (length (heap w) + length done).
Proof.
  set (D := icons_dir_of w). intros Hsplit Hmem Henc Hmk Hdone Hs.
  destruct (makedirs_returns _ _ _ Hmk) as (_ & _ & Hfiles & Hheap & Hout & _ & _ & Em & Ee).
  assert (Hmem1 : 65536 <= memory w1) by lia.
  assert (Henc1 : forall t, In t done ->
            codecs.encodable (stdout_encoding w1) (created_line t (icon_path D t)) = true).
  { intros t Ht. rewrite Ee. exact (Henc t Ht). }
  assert (Hi : forall t, In t [16; 32; 48; 128] ->
            png <$> icon_of t (icon_path D t) w = Some (png (canvas t))).
  { intros t Ht. rewrite icon_of_canvas; [reflexivity|]. apply (allocates_batch t w Ht Hmem). }
  rewrite main_unfold. fold D. rewrite (bind_ok _ _ _ _ _ Hmk).
  destruct done as [|a [|b [|c [|d done']]]]; simplify_eq/=.
  - (* the first icon *)
    eexists _, _. split.
    { apply bind_err. apply bind_err. apply create_icon_fails; [|exact Hs].
      apply (allocates_batch 16 w1); [simpl; tauto | lia]. }
    cbn [with_heap files stdout heap]. rewrite Hfiles, Hheap, Hout, length_app, app_nil_r.
    split; [apply open_error_cases|]. repeat split; try tauto; simpl; lia.
  - (* the second *)
    set (w2 := after_create_icon 16 (icon_path D 16) w1).
    eexists _, _. split.
    { apply bind_err.
      rewrite (bind_ok _ _ w1 tt w2)
        by (apply create_icon_ok;
              [apply (allocates_batch 16 w1); [simpl; tauto | lia] | lia
              | apply Hdone; tauto | apply Henc1; tauto]).
      apply bind_err. apply (create_icon_fails 32 _ w2); [|exact Hs].
      apply (allocates_batch 32 w1); [simpl; tauto | lia]. }
    cbn [with_heap after_create_icon files stdout heap w2].
    rewrite Hfiles, Hheap, Hout, !length_app.
    split; [apply open_error_cases|]. repeat split.
    + intros t [<-|[]]. rewrite Hi by (simpl; tauto). icon_lookups D.
    + intros t [<-|[<-|[<-|[]]]]; icon_lookups D.
    + simpl; lia.
  - (* the third *)
    set (w2 := after_create_icon 16 (icon_path D 16) w1).
    set (w3 := after_create_icon 32 (icon_path D 32) w2).
    eexists _, _. split.
    { apply bind_err.
      rewrite (bind_ok _ _ w1 tt w2)
        by (apply create_icon_ok;
              [apply (allocates_batch 16 w1); [simpl; tauto | lia] | lia
              | apply Hdone; tauto | apply Henc1; tauto]).
      rewrite (bind_ok _ _ w2 tt w3)
        by (apply create_icon_ok;
              [apply (allocates_batch 32 w1); [simpl; tauto | lia] | lia
              | apply (Hdone 32); tauto | apply (Henc1 32); tauto]).
      apply bind_err. apply (create_icon_fails 48 _ w3); [|exact Hs].
      apply (allocates_batch 48 w1); [simpl; tauto | lia]. }
    cbn [with_heap after_create_icon files stdout heap w2 w3].
    rewrite Hfiles, Hheap, Hout, !length_app, <- !app_assoc.
    split; [apply open_error_cases|]. repeat split.
    + intros t [<-|[<-|[]]]; rewrite Hi by (simpl; tauto); icon_lookups D.
    + intros t [<-|[<-|[]]]; icon_lookups D.
    + simpl; lia.
  - (* the fourth *)
    set (w2 := after_create_icon 16 (icon_path D 16) w1).
    set (w3 := after_create_icon 32 (icon_path D 32) w2).
    set (w4 := after_create_icon 48 (icon_path D 48) w3).
    eexists _, _. split.
    { apply bind_err.
      rewrite (bind_ok _ _ w1 tt w2)
        by (apply create_icon_ok;
              [apply (allocates_batch 16 w1); [simpl; tauto | lia] | lia
              | apply Hdone; tauto | apply Henc1; tauto]).
      rewrite (bind_ok _ _ w2 tt w3)
        by (apply create_icon_ok;
              [apply (allocates_batch 32 w1); [simpl; tauto | lia] | lia
              | apply (Hdone 32); tauto | apply (Henc1 32); tauto]).
      rewrite (bind_ok _ _ w3 tt w4)
        by (apply create_icon_ok;
              [apply (allocates_batch 48 w1); [simpl; tauto | lia] | lia
              | apply (Hdone 48); tauto | apply (Henc1 48); tauto]).
      apply bind_err. apply (create_icon_fails 128 _ w4); [|exact Hs].
      apply (allocates_batch 128 w1); [simpl; tauto | lia]. }
    cbn [with_heap after_create_icon files stdout heap w2 w3 w4].
    rewrite Hfiles, Hheap, Hout, !length_app, <- !app_assoc.
    split; [apply open_error_cases|]. repeat split.
    + intros t [<-|[<-|[<-|[]]]]; rewrite Hi by (simpl; tauto); icon_lookups D.
    + intros t [<-|[]]; icon_lookups D.
    + simpl; lia.
  - destruct done'; discriminate.
Qed.

Lemma batch_stops_at_first_failure_witness :
  let w := world_with_directory_in_the_way in
  exists e w', main w = (inl e, w') /\
    (forall t, In t [16; 32] ->
       files w' !! icon_path (icons_dir_of w) t
       = png <$> icon_of t (icon_path (icons_dir_of w) t) w) /\
    (forall t, In t [48; 128] -> files w' !! icon_path (icons_dir_of w) t = None) /\
    stdout w' =
      [ "Created /home/user/bookmarkable/extension/icons/icon16.png (16x16)";
        "Created /home/user/bookmarkable/extension/icons/icon32.png (32x32)" ].
Proof.
  cbv zeta.
  destruct (batch_stops_at_first_failure world_with_directory_in_the_way
              world_with_directory_in_the_way [16; 32] 48 [128])
    as (e & w' & E & _ & Hd & Hr & Ho & _).
  - reflexivity.
  - vm_compute. discriminate.
  - intros t _. reflexivity.
  - vm_compute. reflexivity.
  - intros t [<-|[<-|[]]]; vm_compute; reflexivity.
  - vm_compute. reflexivity.
  - exists e, w'. split; [exact E|]. split; [exact Hd|]. split; [|exact Ho].
    intros t Ht. rewrite (Hr t Ht). reflexivity.
Defined.



(** X8.  When [os.makedirs] raises, [main] raises the same exception and
    nothing has happened: no image allocated, no file written, no line
    printed.  With [exist_ok=True] this is still the case when the output
    path is a regular file: [FileExistsError]. *)
Theorem batch_does_nothing_when_makedirs_fails w :
  (forall e w', os_makedirs (icons_dir_of w) w = (inl e, w') -> main w = (inl e, w)) /\
  (icons_dir_of w ∉ dirs w -> icons_dir_of w ∈ dom (files w) ->
   main w = (inl (FileExistsError (icons_dir_of w)), w)).
Proof.
  assert (G : forall e w', os_makedirs (icons_dir_of w) w = (inl e, w') -> main w = (inl e, w)).
  { intros e w' H. rewrite main_unfold.
    destruct (makedirs_raises _ _ _ _ H) as [_ ->]. apply bind_err. exact H. }
  split; [exact G|]. intros Hd Hf. apply (G _ w).
  unfold os_makedirs. rewrite bool_decide_eq_false_2 by exact Hd.
  rewrite bool_decide_eq_true_2 by exact Hf. reflexivity.
Qed.

Lemma batch_does_nothing_when_makedirs_fails_witness :
  main world_with_file_in_the_way =
    (inl (NotADirectoryError "/home/user/bookmarkable/extension/icons"),
     world_with_file_in_the_way).
Proof.
  apply (proj1 (batch_does_nothing_when_makedirs_fails world_with_file_in_the_way)
           _ world_with_file_in_the_way).
  vm_compute. reflexivity.
Defined.




(** ** The drawing *)

(** X10.  For every size for which [Image.new] returns the image, every
    bounding box handed to [rounded_rectangle], [ellipse] or [rectangle]
    has four coordinates with [x0 <= x1] and [y0 <= y1] and lies inside the
    canvas [0, 0, size, size]; so no drawing call raises for a box whose
    corners are out of order. *)
Theorem drawn_boxes_are_ordered_and_inside_canvas size filename w :
  allocates size w = true ->
  exists im, icon_of size filename w = Some im /\
    forall d xy, In d (im_drawn im) -> box_of d = Some xy ->
      box_inside xy [0; 0; size; size].
Proof.
  intros Ha. exists (canvas size). split; [apply icon_of_canvas; exact Ha|].
  pose proof (proj1 (allocates_spec size w) Ha) as [Hs _].
  cbn [canvas im_drawn]. intros d xy Hin Hb. unfold drawn_calls in Hin.
  destruct Hin as [<-|Hin].
  { injection Hb as <-. unfold box_inside. div_lia. }
  destruct (bookmark_points size) as [e|pts]; [destruct Hin|].
  destruct Hin as [<-|Hin]; [discriminate|].
  destruct (Z.le_gt_cases 32 size) as [H32|H32].
  - rewrite (badge_calls_large size H32) in Hin.
    destruct Hin as [<-|[<-|[<-|[]]]]; injection Hb as <-; unfold box_inside; div_lia.
  - rewrite (badge_calls_small size ltac:(lia)) in Hin. destruct Hin.
Qed.

Lemma drawn_boxes_are_ordered_and_inside_canvas_witness :
  allocates 128 project_world = true /\
  exists im,
    icon_of 128 "/home/user/bookmarkable/extension/icons/icon128.png" project_world = Some im /\
    forall d xy, In d (im_drawn im) -> box_of d = Some xy ->
      box_inside xy [0; 0; 128; 128].
Proof.
  split; [reflexivity|].
  apply (drawn_boxes_are_ordered_and_inside_canvas 128
           "/home/user/bookmarkable/extension/icons/icon128.png" project_world). reflexivity.
Defined.

(** X11.  For every size from 32 on for which [Image.new] returns the
    image, [plus_size // 4] is at least 1, so that [max(1, plus_size // 4)]
    is [plus_size // 4]; each bar of the plus sign lies inside the square
    [plus_x, plus_y, plus_x + plus_size, plus_y + plus_size], which lies
    inside the bounding box of the badge circle; and the two bars share the
    square of half-width [plus_thickness // 2] around
    [(plus_x + plus_size // 2, plus_y + plus_size // 2)]. *)
Theorem plus_bars_cross_inside_badge size filename w :
  32 <= size -> allocates size w = true ->
  let plus_size := size / 8 in
  let plus_x := size - plus_size - 2 in
  let half := plus_size / 4 / 2 in
  let inner := [plus_x; 2; plus_x + plus_size; 2 + plus_size] in
  let vbar := [plus_x + plus_size / 2 - half; 2; plus_x + plus_size / 2 + half; 2 + plus_size] in
  let hbar := [plus_x; 2 + plus_size / 2 - half; plus_x + plus_size; 2 + plus_size / 2 + half] in
  exists im before circle,
    icon_of size filename w = Some im /\
    im_drawn im = before ++ [ellipse circle badge_green; rectangle vbar white;
                             rectangle hbar white] /\
    1 <= plus_size / 4 /\
    box_inside vbar inner /\ box_inside hbar inner /\ box_inside inner circle /\
    box_inside [plus_x + plus_size / 2 - half; 2 + plus_size / 2 - half;
                plus_x + plus_size / 2 + half; 2 + plus_size / 2 + half] vbar /\
    box_inside [plus_x + plus_size / 2 - half; 2 + plus_size / 2 - half;
                plus_x + plus_size / 2 + half; 2 + plus_size / 2 + half] hbar.
Proof.
  intros Hs Ha. cbv zeta. exists (canvas size).
  destruct (drawn_calls_allocated size w Ha) as (pts & _ & E).
  eexists [_; _], _. split; [apply icon_of_canvas; exact Ha|].
  cbn [canvas im_drawn]. rewrite E, (badge_calls_large size Hs).
  assert (Ht : 1 <= size / 8 / 4) by div_lia.
  rewrite (Z.max_r 1 (size / 8 / 4)) by exact Ht.
  split; [reflexivity|]. split; [exact Ht|].
  unfold box_inside. repeat split; div_lia.
Qed.

Lemma plus_bars_cross_inside_badge_witness :
  32 <= 128 /\ allocates 128 project_world = true /\
  exists im before circle,
    icon_of 128 "/home/user/bookmarkable/extension/icons/icon128.png" project_world = Some im /\
    im_drawn im = before ++ [ellipse circle badge_green; rectangle [116; 2; 120; 18] white;
                             rectangle [110; 8; 126; 12] white] /\
    1 <= 4 /\
    box_inside [116; 2; 120; 18] [110; 2; 126; 18] /\
    box_inside [110; 8; 126; 12] [110; 2; 126; 18] /\
    box_inside [110; 2; 126; 18] circle /\
    box_inside [116; 8; 120; 12] [116; 2; 120; 18] /\
    box_inside [116; 8; 120; 12] [110; 8; 126; 12].
Proof.
  split; [lia|]. split; [reflexivity|].
  apply (plus_bars_cross_inside_badge 128
           "/home/user/bookmarkable/extension/icons/icon128.png" project_world);
    [lia | reflexivity].
Defined.

(** X12.  For every size for which [Image.new] returns the image, the glyph
    is the polygon [(x0, y0), (x1, y0), (x1, ys), (xm, yb), (x0, ys)] with
    a horizontal top edge, two vertical sides that end at the same height
    [ys], and a bottom vertex that is not above the ends of the sides
    ([ys <= yb]: a point, not a notch) and is midway between the sides
    within one pixel.  The glyph is centred horizontally in the canvas
    within one pixel, and its top is at least as close to the top of the
    canvas as its bottom vertex is to the bottom.  From size 7 on the sides
    have a positive length and the bottom vertex is strictly below their
    ends. *)
Theorem bookmark_is_a_pointed_pentagon size filename w :
  allocates size w = true ->
  exists im first rest x0 y0 x1 xm ys yb,
    icon_of size filename w = Some im /\
    im_drawn im = first :: polygon [x0; y0; x1; y0; x1; ys; xm; yb; x0; ys] white :: rest /\
    x0 <= xm <= x1 /\ 0 <= (x1 - xm) - (xm - x0) <= 1 /\
    0 <= (size - x1) - x0 <= 1 /\
    y0 <= ys <= yb /\ y0 <= size - yb /\
    (7 <= size -> y0 < ys < yb).
Proof.
  intros Ha. pose proof (proj1 (allocates_spec size w) Ha) as [Hs _].
  destruct (bookmark_points_small size ltac:(lia)) as (r & _ & _ & _ & Br & _ & Pr & E).
  exists (canvas size). do 2 eexists.
  exists ((size - size / 2) / 2), ((size - 6 * size / 10) / 2),
         ((size - size / 2) / 2 + size / 2), ((size - size / 2) / 2 + size / 2 / 2),
         ((size - 6 * size / 10) / 2 + r),
         ((size - 6 * size / 10) / 2 + 9 * (6 * size / 10) / 10).
  split; [apply icon_of_canvas; exact Ha|]. cbn [canvas im_drawn]. unfold drawn_calls.
  rewrite E. split; [reflexivity|]. clear E.
  split; [div_lia|]. split; [div_lia|]. split; [div_lia|]. split; [div_lia|].
  split; [div_lia|]. intros H7. div_lia.
Qed.

Lemma bookmark_is_a_pointed_pentagon_witness :
  allocates 48 project_world = true /\
  exists im first rest x0 y0 x1 xm ys yb,
    icon_of 48 "/home/user/bookmarkable/extension/icons/icon48.png" project_world = Some im /\
    im_drawn im = first :: polygon [x0; y0; x1; y0; x1; ys; xm; yb; x0; ys] white :: rest /\
    x0 <= xm <= x1 /\ 0 <= (x1 - xm) - (xm - x0) <= 1 /\
    0 <= (48 - x1) - x0 <= 1 /\
    y0 <= ys <= yb /\ y0 <= 48 - yb /\
    (7 <= 48 -> y0 < ys < yb).
Proof.
  split; [reflexivity|].
  apply (bookmark_is_a_pointed_pentagon 48
           "/home/user/bookmarkable/extension/icons/icon48.png" project_world). reflexivity.
Defined.

(** X13.  For every size for which [Image.new] returns the image, the
    bounding box of the glyph lies inside the bounding box of the
    background plate [margin, margin, size - margin, size - margin], and
    twice the corner radius of the plate is at most the side of the
    plate. *)
Theorem bookmark_lies_on_the_plate size filename w : allocates size w = true ->
  exists im margin radius x0 y0 x1 xm ys yb rest,
    icon_of size filename w = Some im /\
    im_drawn im = rounded_rectangle [margin; margin; size - margin; size - margin] radius bg_blue
                  :: polygon [x0; y0; x1; y0; x1; ys; xm; yb; x0; ys] white :: rest /\
    box_inside [x0; y0; x1; yb] [margin; margin; size - margin; size - margin] /\
    x0 <= xm <= x1 /\ y0 <= ys <= yb /\
    0 <= 2 * radius <= size - margin - margin.
Proof.
  intros Ha. pose proof (proj1 (allocates_spec size w) Ha) as [Hs _].
  destruct (bookmark_points_small size ltac:(lia)) as (t & _ & _ & _ & Bt & _ & Pt & E).
  exists (canvas size). do 2 eexists.
  exists ((size - size / 2) / 2), ((size - 6 * size / 10) / 2),
         ((size - size / 2) / 2 + size / 2), ((size - size / 2) / 2 + size / 2 / 2),
         ((size - 6 * size / 10) / 2 + t), ((size - 6 * size / 10) / 2 + 9 * (6 * size / 10) / 10).
  eexists. split; [apply icon_of_canvas; exact Ha|]. cbn [canvas im_drawn].
  unfold drawn_calls. rewrite E. split; [reflexivity|].
  unfold box_inside. clear E. repeat split; div_lia.
Qed.

Lemma bookmark_lies_on_the_plate_witness :
  allocates 16 project_world = true /\
  exists im margin radius x0 y0 x1 xm ys yb rest,
    icon_of 16 "/home/user/bookmarkable/extension/icons/icon16.png" project_world = Some im /\
    im_drawn im = rounded_rectangle [margin; margin; 16 - margin; 16 - margin] radius bg_blue
                  :: polygon [x0; y0; x1; y0; x1; ys; xm; yb; x0; ys] white :: rest /\
    box_inside [x0; y0; x1; yb] [margin; margin; 16 - margin; 16 - margin] /\
    x0 <= xm <= x1 /\ y0 <= ys <= yb /\
    0 <= 2 * radius <= 16 - margin - margin.
Proof.
  split; [reflexivity|].
  apply (bookmark_lies_on_the_plate 16
           "/home/user/bookmarkable/extension/icons/icon16.png" project_world). reflexivity.
Defined.

(** X14.  For every size for which [Image.new] returns the image, the
    drawing calls on the icon are exactly two below size 32 and exactly
    five from 32 on, with the fills blue, white and then, for the badge,
    green, white, white, in this order. *)
Theorem fills_are_blue_white_then_badge size filename w : allocates size w = true ->
  exists im, icon_of size filename w = Some im /\
    map fill_of (im_drawn im) =
      [bg_blue; white] ++ (if 32 <=? size then [badge_green; white; white] else []).
Proof.
  intros Ha. exists (canvas size). split; [apply icon_of_canvas; exact Ha|].
  destruct (drawn_calls_allocated size w Ha) as (pts & _ & E).
  cbn [canvas im_drawn]. rewrite E. unfold badge_calls.
  destruct (32 <=? size); reflexivity.
Qed.

Lemma fills_are_blue_white_then_badge_witness :
  allocates 16 project_world = true /\
  exists im,
    icon_of 16 "/home/user/bookmarkable/extension/icons/icon16.png" project_world = Some im /\
    map fill_of (im_drawn im) = [bg_blue; white] ++ [].
Proof.
  split; [reflexivity|].
  apply (fills_are_blue_white_then_badge 16
           "/home/user/bookmarkable/extension/icons/icon16.png" project_world). reflexivity.
Defined.

(** ** A second run, and a standard output that is not UTF-8 *)

(** X15.  After a run of [main] that returned, a second run of [main]
    returns as well and leaves every file and every directory as the first
    run left them; it prints again the lines that the first run printed. *)
Theorem rerun_succeeds_and_changes_no_file w w' : main w = (inr tt, w') ->
  exists w'', main w' = (inr tt, w'') /\
    files w'' = files w' /\ dirs w'' = dirs w' /\
    stdout w'' = stdout w' ++ skipn (length (stdout w)) (stdout w').
Proof.
  intros H. apply main_success in H as (w1 & Hmk & Hm & Hu & Hw & ->).
  destruct (makedirs_returns _ _ _ Hmk) as (Hin & Hsub & Hf & Hh & Ho & Hp & Hsf & Em & Ee).
  set (D := icons_dir_of w) in *.
  assert (HD : icons_dir_of (after_main D w1) = D).
  { unfold icons_dir_of.
    cbn [after_main after_icons script_file with_stdout after_create_icon].
    rewrite Hsf. reflexivity. }
  exists (after_main D (after_main D w1)). split.
  - apply main_success. exists (after_main D w1). rewrite HD.
    split; [apply makedirs_present; exact Hin|].
    cbn [after_main after_icons after_create_icon with_stdout memory stdout_encoding].
    split; [lia|]. split; [congruence|]. split; [exact Hw | reflexivity].
  - split; [|split].
    + cbn [after_main after_icons files with_stdout after_create_icon].
      apply map_eq. intros k. icon_lookups D.
    + reflexivity.
    + cbn [after_main after_icons stdout with_stdout after_create_icon]. rewrite Ho.
      rewrite <- !app_assoc. rewrite skipn_app, skipn_all, Nat.sub_diag. reflexivity.
Qed.

Lemma rerun_succeeds_and_changes_no_file_witness :
  exists w', main project_world = (inr tt, w') /\
  exists w'', main w' = (inr tt, w'') /\
    files w'' = files w' /\ dirs w'' = dirs w' /\
    stdout w'' = stdout w' ++ skipn (length (stdout project_world)) (stdout w').
Proof.
  eexists. split; [vm_compute; reflexivity|].
  apply (rerun_succeeds_and_changes_no_file project_world). vm_compute. reflexivity.
Defined.


